(** * TypeRush theme provider: a model of [ThemeProvider] and [useTheme]

  The development follows the theme provider component of the TypeRush
  front end: the persisted preference, the operating-system colour scheme,
  the resolved theme exposed through the React context, the routine that
  writes the marker on the document root, and the accessor [useTheme].

  JavaScript strings are [string]; the TypeScript types [Theme] and
  [SystemTheme] are erased at run time, so a theme held in component state
  is whatever string reached it.  Exceptions are an explicit completion
  type, [localStorage] is a finite map with the two ways it can throw, the
  document is a record of the parts the component touches, and the React
  runtime is a small machine over hook cells: state, memo cells with their
  dependency lists, closures with the values they captured, and the passive
  effect with its cleanup. *)

From Stdlib Require Import String List Bool Arith Lia.
From stdpp Require Import base gmap strings list.
Import ListNotations.

Local Open Scope string_scope.
Local Open Scope list_scope.

(** ** JavaScript values *)

Module Js.

(** A completion: the call returns normally or throws. *)
Inductive Completion (A : Type) : Type :=
| Normal (a : A)
| Throw (message : string).
Arguments Normal {A} a.
Arguments Throw {A} message.

Definition bind {A B} (c : Completion A) (k : A -> Completion B) : Completion B :=
  match c with
  | Normal a => k a
  | Throw m => Throw m
  end.

(** [try { c } catch (e) { h }] *)
Definition tryCatch {A} (c : Completion A) (h : A) : A :=
  match c with
  | Normal a => a
  | Throw _ => h
  end.

(** [a === b] on strings. *)
Definition strictEq (a b : string) : bool := String.eqb a b.

(** Truthiness of a string: every string but the empty one. *)
Definition truthy (s : string) : bool :=
  match s with
  | EmptyString => false
  | String _ _ => true
  end.

(** [a || b] where [a] is a string, [null] or [undefined]. *)
Definition orElse (a : option string) (b : string) : string :=
  match a with
  | Some s => if truthy s then s else b
  | None => b
  end.

(** [s.includes(sub)] *)
Definition includes (s sub : string) : bool :=
  match String.index 0 sub s with
  | Some _ => true
  | None => false
  end.

End Js.

Notation "a === b" := (Js.strictEq a b) (at level 70, no associativity).
Notation "a ||| b" := (Js.orElse a b) (at level 50, left associativity).

(** ** localStorage *)

Module LocalStorage.

(** The storage area.  [blocked]: access to storage is denied, every call
    throws.  [full]: the quota is exceeded, writes throw. *)
Record t : Type := mk {
  items : gmap string string;
  blocked : bool;
  full : bool;
}.

Definition getItem (st : t) (key : string) : Js.Completion (option string) :=
  if blocked st then Js.Throw "SecurityError"
  else Js.Normal (items st !! key).

Definition setItem (st : t) (key val : string) : Js.Completion t :=
  if blocked st then Js.Throw "SecurityError"
  else if full st then Js.Throw "QuotaExceededError"
  else Js.Normal (mk (<[key := val]> (items st)) (blocked st) (full st)).

(** Storage that is neither blocked nor full. *)
Definition working (st : t) : Prop := blocked st = false /\ full st = false.

End LocalStorage.

(** ** The document

    The parts of the page the component reads and writes: the children of
    [document.head], the class list and the attributes of the root element,
    the [theme-color] meta element, and the callbacks waiting for the next
    animation frame.  Class tokens and attribute names are taken to be valid,
    so the operations on them do not throw; the class list is kept apart from
    the attributes, which is exact for every marker attribute but [class]. *)

Module Dom.

(** A child of [document.head]. *)
Record Element : Type := mkElement {
  node_id : nat;
  tagName : string;
  textContent : string;
}.

(** A callback handed to [requestAnimationFrame].  The component registers
    one kind only, the removal of the transition-suppressing style rules
    (source lines 137-144).  The closure captures nothing of the call that
    registered it; [installedWith] records, for stating properties, the
    node that the same [applyTheme] call appended. *)
Inductive FrameCallback : Type :=
| RemoveTransitionStyles (installedWith : nat).

Definition installedWith (cb : FrameCallback) : nat :=
  match cb with RemoveTransitionStyles n => n end.

Record Document : Type := mkDocument {
  head : list Element;
  rootClassList : list string;
  rootAttributes : gmap string string;
  (** content of the first [meta[name="theme-color"]], when there is one *)
  themeColorMeta : option string;
  nextNode : nat;
  frameCallbacks : list FrameCallback;
}.

Definition setHead (h : list Element) (d : Document) : Document :=
  mkDocument h (rootClassList d) (rootAttributes d) (themeColorMeta d)
             (nextNode d) (frameCallbacks d).

(** [const css = document.createElement("style"); css.textContent = text;
    document.head.appendChild(css)] *)
Definition appendStyle (text : string) (d : Document) : Document :=
  mkDocument (head d ++ [mkElement (nextNode d) "style" text])
             (rootClassList d) (rootAttributes d) (themeColorMeta d)
             (S (nextNode d)) (frameCallbacks d).

Definition classList_remove (tokens : list string) (d : Document) : Document :=
  mkDocument (head d)
             (List.filter (fun c => negb (existsb (String.eqb c) tokens)) (rootClassList d))
             (rootAttributes d) (themeColorMeta d) (nextNode d) (frameCallbacks d).

Definition classList_add (token : string) (d : Document) : Document :=
  mkDocument (head d)
             (if existsb (String.eqb token) (rootClassList d)
              then rootClassList d else rootClassList d ++ [token])
             (rootAttributes d) (themeColorMeta d) (nextNode d) (frameCallbacks d).

Definition removeAttribute (name : string) (d : Document) : Document :=
  mkDocument (head d) (rootClassList d) (delete name (rootAttributes d))
             (themeColorMeta d) (nextNode d) (frameCallbacks d).

Definition setAttribute (name val : string) (d : Document) : Document :=
  mkDocument (head d) (rootClassList d) (<[name := val]> (rootAttributes d))
             (themeColorMeta d) (nextNode d) (frameCallbacks d).

(** [if (themeColorMeta) themeColorMeta.setAttribute("content", c)] *)
Definition setThemeColor (c : string) (d : Document) : Document :=
  mkDocument (head d) (rootClassList d) (rootAttributes d)
             (match themeColorMeta d with Some _ => Some c | None => None end)
             (nextNode d) (frameCallbacks d).

Definition requestAnimationFrame (cb : FrameCallback) (d : Document) : Document :=
  mkDocument (head d) (rootClassList d) (rootAttributes d) (themeColorMeta d)
             (nextNode d) (frameCallbacks d ++ [cb]).

(** [document.head.querySelectorAll("style")]: a static list. *)
Definition querySelectorAll_style (d : Document) : list Element :=
  List.filter (fun e => String.eqb (tagName e) "style") (head d).

Fixpoint removeFirst (n : nat) (l : list Element) : option (list Element) :=
  match l with
  | [] => None
  | e :: l' =>
      if Nat.eqb (node_id e) n then Some l'
      else match removeFirst n l' with
           | Some r => Some (e :: r)
           | None => None
           end
  end.

(** [document.head.removeChild(node)]: throws when [node] is not a child. *)
Definition removeChild (node : Element) (d : Document) : Js.Completion Document :=
  match removeFirst (node_id node) (head d) with
  | Some h => Js.Normal (setHead h d)
  | None => Js.Throw "NotFoundError"
  end.

End Dom.

(** ** Types of the theme provider (source lines 12-35) *)

(** [type Theme = "light" | "dark" | "system"] and
    [type SystemTheme = Exclude<Theme, "system">].  Both are erased at run
    time: a value of either type is a string, and the cast on line 61 lets any
    stored string through. *)
Definition Theme : Type := string.
Definition SystemTheme : Type := string.

(** The values the TypeScript type [Theme] admits. *)
Definition isTheme (t : string) : Prop :=
  t = "light" \/ t = "dark" \/ t = "system".

(** [attribute?: string | false] *)
Inductive AttributeProp : Type :=
| AttrFalse
| AttrName (name : string).

(** [value?: { light?: string; dark?: string }] *)
Record ValueProp : Type := mkValue {
  light : option string;
  dark : option string;
}.

(** [ThemeProviderProps], without [children]: every option may be omitted. *)
Record ThemeProviderProps : Type := mkProps {
  prop_defaultTheme : option Theme;
  prop_storageKey : option string;
  prop_disableTransitionOnChange : option bool;
  prop_enableSystem : option bool;
  prop_attribute : option AttributeProp;
  prop_value : option ValueProp;
}.

(** The destructured parameters with their defaults (lines 50-55). *)
Definition defaultTheme (p : ThemeProviderProps) : Theme :=
  default "system" (prop_defaultTheme p).
Definition storageKey (p : ThemeProviderProps) : string :=
  default "ui-theme" (prop_storageKey p).
Definition disableTransitionOnChange (p : ThemeProviderProps) : bool :=
  default true (prop_disableTransitionOnChange p).
Definition enableSystem (p : ThemeProviderProps) : bool :=
  default true (prop_enableSystem p).
Definition attribute (p : ThemeProviderProps) : AttributeProp :=
  default (AttrName "data-theme") (prop_attribute p).
Definition value (p : ThemeProviderProps) : ValueProp :=
  default (mkValue (Some "light") (Some "dark")) (prop_value p).

(** Identity of the object bound to [value] in render number [n].  A [value]
    prop passed by the parent is one object for as long as the parent does
    not render again; when it is omitted, the default on line 55 is an object
    literal evaluated anew by every render. *)
Definition valueRef (p : ThemeProviderProps) (n : nat) : nat :=
  match prop_value p with
  | Some _ => 0
  | None => n
  end.

(** *** Closures

    A function created during a render is a record of what it captured and
    of its identity [_ref], the number of the render that created it. *)

(** [applyTheme] (lines 82-150). *)
Record ApplyTheme : Type := mkApplyTheme {
  ap_ref : nat;
  ap_systemTheme : SystemTheme;
  ap_disableTransitionOnChange : bool;
  ap_attribute : AttributeProp;
  ap_value : ValueProp;
}.

(** [setTheme]: the provider's closure (lines 175-186), or [() => null] of
    [initialState]. *)
Inductive SetTheme : Type :=
| SetThemeNull
| SetThemeFn (ref : nat) (key : string) (apply : ApplyTheme).

(** [toggleTheme]: the provider's closure (lines 188-190), or [() => null]. *)
Inductive ToggleTheme : Type :=
| ToggleThemeNull
| ToggleThemeFn (ref : nat) (captured : Theme) (set : SetTheme).

Definition setTheme_ref (f : SetTheme) : nat :=
  match f with
  | SetThemeNull => 0
  | SetThemeFn r _ _ => r
  end.

(** [ThemeProviderState] (lines 28-35), the value carried by the context. *)
Record ThemeProviderState : Type := mkState {
  theme : Theme;
  systemTheme : SystemTheme;
  resolvedTheme : SystemTheme;
  themes : list Theme;
  setThemeFn : SetTheme;
  toggleThemeFn : ToggleTheme;
}.

(** [initialState] (lines 37-44). *)
Definition initialState : ThemeProviderState :=
  mkState "system" "light" "light" ["light"; "dark"; "system"]
          SetThemeNull ToggleThemeNull.

(** ** The context and its accessor (lines 46, 211-219) *)

(** A context value as JavaScript sees it: [None] is [undefined]. *)
Definition ContextValue : Type := option ThemeProviderState.

(** [createContext<ThemeProviderState>(initialState)]: the default value. *)
Definition ThemeProviderContext : ContextValue := Some initialState.

(** [useContext(ctx)] at a place of the tree whose enclosing providers, from
    the nearest outwards, supply [providers]: the nearest provider's value,
    or the context's default value when there is no provider. *)
Definition useContext (ctx : ContextValue) (providers : list ContextValue) : ContextValue :=
  match providers with
  | [] => ctx
  | v :: _ => v
  end.

(** [useTheme] (lines 211-219). *)
Definition useTheme (providers : list ContextValue) : Js.Completion ThemeProviderState :=
  let context := useContext ThemeProviderContext providers in
  match context with
  | None => Js.Throw "useTheme must be used within a ThemeProvider"
  | Some c => Js.Normal c
  end.

(** ** applyTheme (lines 82-150) *)

(** The text of the injected style element (lines 90-95). *)
Definition transitionCss : string :=
"* {
          -webkit-transition: none !important;
          -moz-transition: none !important;
          -o-transition: none !important;
          transition: none !important;
        }".

(** The text the removal looks for (line 140). *)
Definition transitionMarker : string := "transition: none !important".

(** The resolution on lines 107-111. *)
Definition applyTheme_resolved (f : ApplyTheme) (newTheme : Theme) : SystemTheme :=
  if newTheme === "system" then ap_systemTheme f else newTheme.

Definition applyTheme (f : ApplyTheme) (newTheme : Theme) (d : Dom.Document)
  : SystemTheme * Dom.Document :=
  let lightLabel := light (ap_value f) ||| "light" in
  let darkLabel := dark (ap_value f) ||| "dark" in
  let css := Dom.nextNode d in
  (* lines 88-97 *)
  let d := if ap_disableTransitionOnChange f
           then Dom.appendStyle transitionCss d else d in
  (* line 100 *)
  let d := Dom.classList_remove [lightLabel; darkLabel] d in
  (* lines 102-104 *)
  let d := match ap_attribute f with
           | AttrFalse => d
           | AttrName a => Dom.removeAttribute (Some a ||| "data-theme") d
           end in
  (* lines 107-111 *)
  let resolved := applyTheme_resolved f newTheme in
  (* lines 114-123 *)
  let label := if resolved === "light" then lightLabel else darkLabel in
  let d := match ap_attribute f with
           | AttrFalse => Dom.classList_add label d
           | AttrName a => Dom.setAttribute (Some a ||| "data-theme") label d
           end in
  (* lines 126-132 *)
  let d := Dom.setThemeColor (if resolved === "light" then "#ffffff" else "#000000") d in
  (* lines 135-145 *)
  let d := if ap_disableTransitionOnChange f
           then Dom.requestAnimationFrame (Dom.RemoveTransitionStyles css) d else d in
  (resolved, d).

(** The body of [styles.forEach] (lines 139-143) for one [style], after the
    styles before it. *)
Definition removalStep (acc : Js.Completion Dom.Document) (style : Dom.Element)
  : Js.Completion Dom.Document :=
  Js.bind acc (fun d =>
    if Js.includes (Dom.textContent style) transitionMarker
    then Dom.removeChild style d
    else Js.Normal d).

(** The callback registered on line 137, run by the browser on the next
    frame (lines 138-143). *)
Definition removeTransitionStyles (d : Dom.Document) : Js.Completion Dom.Document :=
  let styles := Dom.querySelectorAll_style d in
  fold_left removalStep styles (Js.Normal d).

Definition runFrameCallback (cb : Dom.FrameCallback) (d : Dom.Document)
  : Js.Completion Dom.Document :=
  match cb with
  | Dom.RemoveTransitionStyles _ => removeTransitionStyles d
  end.

(** The browser takes the oldest pending callback and runs it: one step of
    an animation frame. *)
Definition nextFrameCallback (d : Dom.Document) : Js.Completion Dom.Document :=
  match Dom.frameCallbacks d with
  | [] => Js.Normal d
  | cb :: rest =>
      runFrameCallback cb
        (Dom.mkDocument (Dom.head d) (Dom.rootClassList d) (Dom.rootAttributes d)
                        (Dom.themeColorMeta d) (Dom.nextNode d) rest)
  end.

(** An animation frame: the [n] callbacks pending at its start run one after
    the other, oldest first, and nothing else runs in between. *)
Fixpoint runFrameCallbacks (n : nat) (d : Dom.Document) : Js.Completion Dom.Document :=
  match n with
  | 0 => Js.Normal d
  | S n => Js.bind (nextFrameCallback d) (runFrameCallbacks n)
  end.

(** ** The browser window *)

(** The listener installed on line 168: [handleSystemThemeChange] of one run
    of the effect, with the [theme] and the [applyTheme] of that render. *)
Record Handler : Type := mkHandler {
  hd_ref : nat;
  hd_theme : Theme;
  hd_applyTheme : ApplyTheme;
}.

(** [window.matchMedia("(prefers-color-scheme: dark)")] *)
Record MediaQueryList : Type := mkMediaQuery {
  matches : bool;
  listeners : list Handler;
}.

Record Window : Type := mkWindow {
  localStorage : LocalStorage.t;
  document : Dom.Document;
  mediaQuery : MediaQueryList;
}.

Definition addEventListener (h : Handler) (m : MediaQueryList) : MediaQueryList :=
  if existsb (fun l => Nat.eqb (hd_ref l) (hd_ref h)) (listeners m)
  then m
  else mkMediaQuery (matches m) (listeners m ++ [h]).

Definition removeEventListener (h : Handler) (m : MediaQueryList) : MediaQueryList :=
  mkMediaQuery (matches m)
               (List.filter (fun l => negb (Nat.eqb (hd_ref l) (hd_ref h))) (listeners m)).

(** ** Hooks *)

(** [useMemo(() => create, deps)] and [useCallback(create, deps)] on a cell
    holding the dependencies and the value of the previous render: the value
    is kept when every dependency is the same, and computed anew otherwise. *)
Definition useMemo {D V : Type} (same : D -> D -> bool)
  (cell : option (D * V)) (deps : D) (create : V) : D * V :=
  match cell with
  | Some (d, v) => if same d deps then (d, v) else (deps, create)
  | None => (deps, create)
  end.

(** [useEffect(effect, deps)]: whether the effect is to run after this
    render. *)
Definition useEffect {D : Type} (same : D -> D -> bool)
  (cell : option D) (deps : D) : bool :=
  match cell with
  | Some d => negb (same d deps)
  | None => true
  end.

(** [Object.is] on the dependency lists of the component. *)
Definition sameAttribute (a b : AttributeProp) : bool :=
  match a, b with
  | AttrFalse, AttrFalse => true
  | AttrName x, AttrName y => x === y
  | _, _ => false
  end.

Definition sameResolvedDeps (a b : Theme * SystemTheme) : bool :=
  (fst a === fst b) && (snd a === snd b).

Definition sameApplyDeps (a b : SystemTheme * bool * AttributeProp * nat) : bool :=
  let '(s1, t1, a1, v1) := a in
  let '(s2, t2, a2, v2) := b in
  (s1 === s2) && Bool.eqb t1 t2 && sameAttribute a1 a2 && Nat.eqb v1 v2.

Definition sameRefDeps (a b : string * nat) : bool :=
  (fst a === fst b) && Nat.eqb (snd a) (snd b).

(** The hook cells of one mounted [ThemeProvider], in the order of the
    calls. *)
Record Hooks : Type := mkHooks {
  (* useState, line 57 *)
  hook_theme : Theme;
  (* useState, line 67 *)
  hook_systemTheme : SystemTheme;
  (* useMemo, line 74 *)
  hook_resolvedTheme : option ((Theme * SystemTheme) * SystemTheme);
  (* useMemo, line 78 *)
  hook_themes : option (bool * list Theme);
  (* useCallback, line 82 *)
  hook_applyTheme : option ((SystemTheme * bool * AttributeProp * nat) * ApplyTheme);
  (* useEffect, line 153 *)
  hook_effect : option (Theme * nat);
  (* useCallback, line 175 *)
  hook_setTheme : option ((string * nat) * SetTheme);
  (* useCallback, line 188 *)
  hook_toggleTheme : option ((Theme * nat) * ToggleTheme);
  (* renders of this component so far *)
  renders : nat;
}.

(** The initializer of [theme] (lines 57-65); [None] is a run without
    [window]. *)
Definition initialTheme (p : ThemeProviderProps) (w : option Window) : Theme :=
  match w with
  | None => defaultTheme p
  | Some w =>
      Js.tryCatch
        (Js.bind (LocalStorage.getItem (localStorage w) (storageKey p))
                 (fun item => Js.Normal (item ||| defaultTheme p)))
        (defaultTheme p)
  end.

(** The initializer of [systemTheme] (lines 67-72). *)
Definition initialSystemTheme (w : option Window) : SystemTheme :=
  match w with
  | None => "light"
  | Some w => if matches (mediaQuery w) then "dark" else "light"
  end.

(** The computation inside [useMemo] on line 75. *)
Definition computeResolvedTheme (theme : Theme) (systemTheme : SystemTheme) : SystemTheme :=
  if theme === "system" then systemTheme else theme.

(** The computation inside [useMemo] on line 79. *)
Definition computeThemes (enableSystem : bool) : list Theme :=
  if enableSystem then ["light"; "dark"; "system"] else ["light"; "dark"].

(** What a render leaves behind: the hook cells, the context value given to
    the provider, and the effect of line 153 when its dependencies changed,
    as the [theme] and [applyTheme] it closes over. *)
Record Rendered : Type := mkRendered {
  r_hooks : Hooks;
  r_context : ThemeProviderState;
  r_effect : option (Theme * ApplyTheme);
}.

(** One call of the component function (lines 48-209), with the same props
    as the render before.  The [useMemo] around [contextValue] (line 192)
    lists every field of the value, so the value it returns has the fields of
    this render; its cell is not kept. *)
Definition ThemeProvider (p : ThemeProviderProps) (h : Hooks) : Rendered :=
  let n := S (renders h) in
  let theme := hook_theme h in
  let systemTheme := hook_systemTheme h in
  let resolvedTheme :=
    useMemo sameResolvedDeps (hook_resolvedTheme h) (theme, systemTheme)
            (computeResolvedTheme theme systemTheme) in
  let themes :=
    useMemo Bool.eqb (hook_themes h) (enableSystem p) (computeThemes (enableSystem p)) in
  let applyTheme :=
    useMemo sameApplyDeps (hook_applyTheme h)
            (systemTheme, disableTransitionOnChange p, attribute p, valueRef p n)
            (mkApplyTheme n systemTheme (disableTransitionOnChange p) (attribute p) (value p)) in
  let effect :=
    useEffect sameRefDeps (hook_effect h) (theme, ap_ref (snd applyTheme)) in
  let setTheme :=
    useMemo sameRefDeps (hook_setTheme h) (storageKey p, ap_ref (snd applyTheme))
            (SetThemeFn n (storageKey p) (snd applyTheme)) in
  let toggleTheme :=
    useMemo sameRefDeps (hook_toggleTheme h) (theme, setTheme_ref (snd setTheme))
            (ToggleThemeFn n theme (snd setTheme)) in
  let contextValue :=
    mkState theme systemTheme (snd resolvedTheme) (snd themes)
            (snd setTheme) (snd toggleTheme) in
  mkRendered
    (mkHooks theme systemTheme (Some resolvedTheme) (Some themes) (Some applyTheme)
             (Some (theme, ap_ref (snd applyTheme))) (Some setTheme) (Some toggleTheme) n)
    contextValue
    (if effect then Some (theme, snd applyTheme) else None).

(** ** The mounted provider

    React is modelled as far as the component can tell: a state setter
    stores the value and schedules a render unless the value is the one
    held ([Object.is]); a render is followed by its commit and, when the
    dependencies changed, by the cleanup of the previous effect and the
    effect itself; renders go on until no update is pending, and all of it
    happens before the next event is handled.  The parent does not render
    again, so the props stay the same. *)

(** A mounted [ThemeProvider] in its browser window. *)
Record System : Type := mkSystem {
  props : ThemeProviderProps;
  hooks : Hooks;
  window : Window;
  (* the context value of the last commit: what [useTheme] hands out *)
  context : ThemeProviderState;
  (* the cleanup returned by the last run of the effect (lines 170-172) *)
  cleanup : option Handler;
  (* a state update has asked for another render *)
  scheduled : bool;
  (* every context value committed so far, newest first *)
  commits : list ThemeProviderState;
}.

Definition withWindow (w : Window) (s : System) : System :=
  mkSystem (props s) (hooks s) w (context s) (cleanup s) (scheduled s) (commits s).

Definition withDocument (d : Dom.Document) (s : System) : System :=
  withWindow (mkWindow (localStorage (window s)) d (mediaQuery (window s))) s.

Definition withLocalStorage (st : LocalStorage.t) (s : System) : System :=
  withWindow (mkWindow st (document (window s)) (mediaQuery (window s))) s.

Definition withMediaQuery (m : MediaQueryList) (s : System) : System :=
  withWindow (mkWindow (localStorage (window s)) (document (window s)) m) s.

(** The setters returned by [useState]: the new value is stored, and a
    render is asked for unless it is the value already held. *)
Definition setThemeState (v : Theme) (s : System) : System :=
  let h := hooks s in
  mkSystem (props s)
    (mkHooks v (hook_systemTheme h) (hook_resolvedTheme h) (hook_themes h)
             (hook_applyTheme h) (hook_effect h) (hook_setTheme h)
             (hook_toggleTheme h) (renders h))
    (window s) (context s) (cleanup s)
    (scheduled s || negb (hook_theme h === v)) (commits s).

Definition setSystemTheme (v : SystemTheme) (s : System) : System :=
  let h := hooks s in
  mkSystem (props s)
    (mkHooks (hook_theme h) v (hook_resolvedTheme h) (hook_themes h)
             (hook_applyTheme h) (hook_effect h) (hook_setTheme h)
             (hook_toggleTheme h) (renders h))
    (window s) (context s) (cleanup s)
    (scheduled s || negb (hook_systemTheme h === v)) (commits s).

(** [handleSystemThemeChange] (lines 158-166), called with [e.matches].
    The updates inside [startTransition] are applied like any others. *)
Definition handleSystemThemeChange (h : Handler) (e_matches : bool) (s : System) : System :=
  let newSystemTheme := if e_matches then "dark" else "light" in
  let s := setSystemTheme newSystemTheme s in
  if hd_theme h === "system"
  then withDocument (snd (applyTheme (hd_applyTheme h) "system" (document (window s)))) s
  else s.

(** The effect of lines 153-173, run after the commit of render [n] with the
    [theme] and [applyTheme] of that render; the cleanup of the previous run
    goes first. *)
Definition runEffect (n : nat) (theme : Theme) (apply : ApplyTheme) (s : System) : System :=
  let s := match cleanup s with
           | Some h => withMediaQuery (removeEventListener h (mediaQuery (window s))) s
           | None => s
           end in
  let applied := applyTheme apply theme (document (window s)) in
  let resolved := fst applied in
  let s := withDocument (snd applied) s in
  let s := setSystemTheme resolved s in
  let handler := mkHandler n theme apply in
  let s := withMediaQuery (addEventListener handler (mediaQuery (window s))) s in
  mkSystem (props s) (hooks s) (window s) (context s) (Some handler)
           (scheduled s) (commits s).

(** One render, its commit, and the effect when it is due. *)
Definition renderAndCommit (s : System) : System :=
  let r := ThemeProvider (props s) (hooks s) in
  let s := mkSystem (props s) (r_hooks r) (window s) (r_context r) (cleanup s)
                    false (r_context r :: commits s) in
  match r_effect r with
  | Some (theme, apply) => runEffect (renders (r_hooks r)) theme apply s
  | None => s
  end.

(** Render for as long as a state update asks for it.  [None]: the renders
    did not come to rest within [fuel] rounds. *)
Fixpoint settle (fuel : nat) (s : System) : option System :=
  if scheduled s then
    match fuel with
    | 0 => None
    | S fuel => settle fuel (renderAndCommit s)
    end
  else Some s.

Definition renderBudget : nat := 50.

(** The provider before its first render: the two state cells hold their
    initial values, every other cell is empty. *)
Definition unmounted (p : ThemeProviderProps) (w : Window) : System :=
  mkSystem p
    (mkHooks (initialTheme p (Some w)) (initialSystemTheme (Some w))
             None None None None None None 0)
    w initialState None false [].

(** Mounting [<ThemeProvider {...p}>] in window [w]. *)
Definition mount (p : ThemeProviderProps) (w : Window) : option System :=
  settle renderBudget (renderAndCommit (unmounted p w)).

(** [setTheme] (lines 175-186). *)
Definition setTheme (f : SetTheme) (newTheme : Theme) (s : System) : Js.Completion System :=
  match f with
  | SetThemeNull => Js.Normal s
  | SetThemeFn _ key apply =>
      let s :=
        Js.tryCatch
          (Js.bind (LocalStorage.setItem (localStorage (window s)) key newTheme)
                   (fun st => Js.Normal (withLocalStorage st s)))
          s in
      let s := setThemeState newTheme s in
      let s := withDocument (snd (applyTheme apply newTheme (document (window s)))) s in
      Js.Normal s
  end.

(** [toggleTheme] (lines 188-190). *)
Definition toggleTheme (f : ToggleTheme) (s : System) : Js.Completion System :=
  match f with
  | ToggleThemeNull => Js.Normal s
  | ToggleThemeFn _ theme set =>
      setTheme set (if theme === "light" then "dark" else "light") s
  end.

(** *** What happens to a mounted provider

    Each event runs its handler to the end, and the renders it asked for
    follow.  The result is [None] when the handler throws or the renders do
    not come to rest within [renderBudget]. *)

(** A consumer calls the [setTheme] it got from [useTheme]. *)
Definition callSetTheme (newTheme : Theme) (s : System) : option System :=
  match setTheme (setThemeFn (context s)) newTheme s with
  | Js.Normal s => settle renderBudget s
  | Js.Throw _ => None
  end.

(** A consumer calls the [toggleTheme] it got from [useTheme]. *)
Definition callToggleTheme (s : System) : option System :=
  match toggleTheme (toggleThemeFn (context s)) s with
  | Js.Normal s => settle renderBudget s
  | Js.Throw _ => None
  end.

(** The operating system reports its colour scheme: the media query takes
    the new value and its listeners receive the [change] event. *)
Definition osThemeChange (dark : bool) (s : System) : option System :=
  let m := mediaQuery (window s) in
  let s := withMediaQuery (mkMediaQuery dark (listeners m)) s in
  settle renderBudget
    (fold_left (fun s h => handleSystemThemeChange h dark s) (listeners m) s).

(** The next animation frame: the browser runs the callbacks that are
    pending. *)
Definition animationFrame (s : System) : option System :=
  let d := document (window s) in
  match runFrameCallbacks (length (Dom.frameCallbacks d)) d with
  | Js.Normal d => Some (withDocument d s)
  | Js.Throw _ => None
  end.

(** A run of operating-system notifications. *)
Fixpoint osThemeChanges (events : list bool) (s : System) : option System :=
  match events with
  | [] => Some s
  | e :: events =>
      match osThemeChange e s with
      | Some s => osThemeChanges events s
      | None => None
      end
  end.

(** The states a mounted provider can be in. *)
Inductive reachable : System -> Prop :=
| reach_mount p w s :
    mount p w = Some s -> reachable s
| reach_setTheme t s s' :
    reachable s -> callSetTheme t s = Some s' -> reachable s'
| reach_toggleTheme s s' :
    reachable s -> callToggleTheme s = Some s' -> reachable s'
| reach_osThemeChange b s s' :
    reachable s -> osThemeChange b s = Some s' -> reachable s'
| reach_animationFrame s s' :
    reachable s -> animationFrame s = Some s' -> reachable s'.

(** A scenario: what happens to the provider, in order. *)
Inductive Event : Type :=
| SetThemeEvent (t : Theme)
| ToggleThemeEvent
| OsThemeChangeEvent (dark : bool)
| AnimationFrameEvent.

Definition step (e : Event) (s : System) : option System :=
  match e with
  | SetThemeEvent t => callSetTheme t s
  | ToggleThemeEvent => callToggleTheme s
  | OsThemeChangeEvent dark => osThemeChange dark s
  | AnimationFrameEvent => animationFrame s
  end.

Fixpoint run (events : list Event) (s : System) : option System :=
  match events with
  | [] => Some s
  | e :: events =>
      match step e s with
      | Some s => run events s
      | None => None
      end
  end.

(** *** Test fixtures *)

Definition emptyDocument : Dom.Document :=
  Dom.mkDocument [] [] ∅ None 0 [].

Definition freshWindow (stored : option string) (osDark : bool) : Window :=
  mkWindow
    (LocalStorage.mk (match stored with
                      | Some v => {["ui-theme" := v]}
                      | None => ∅
                      end) false false)
    emptyDocument
    (mkMediaQuery osDark []).

Definition defaultProps : ThemeProviderProps :=
  mkProps None None None None None None.

(** A window whose storage throws on every access. *)
Definition blockedWindow (osDark : bool) : Window :=
  mkWindow (LocalStorage.mk ∅ true false) emptyDocument (mkMediaQuery osDark []).

(** The provider with default props once mounted in [w]. *)
Definition mounted (w : Window) : System :=
  default (unmounted defaultProps w) (mount defaultProps w).

(** What a consumer and the page can see of a provider: the three context
    fields, the operating system's answer, the marker on the root and the
    value stored under the key. *)
Record Observation : Type := mkObservation {
  obs_theme : Theme;
  obs_systemTheme : SystemTheme;
  obs_resolvedTheme : SystemTheme;
  obs_osDark : bool;
  obs_marker : option string;
  obs_stored : option string;
}.

Definition observe (s : System) : Observation :=
  mkObservation
    (theme (context s)) (systemTheme (context s)) (resolvedTheme (context s))
    (matches (mediaQuery (window s)))
    (match attribute (props s) with
     | AttrName a => Dom.rootAttributes (document (window s)) !! (Some a ||| "data-theme")
     | AttrFalse => List.last (List.map Some (Dom.rootClassList (document (window s)))) None
     end)
    (LocalStorage.items (localStorage (window s)) !! storageKey (props s)).

(** ** Statements taken from the specification *)

(** The opposite of a resolved theme. *)
Definition opposite (resolved : SystemTheme) : Theme :=
  if resolved === "light" then "dark" else "light".

(** The specification's reading of the toggle: [setTheme] applied to the
    opposite of the resolved theme now exposed. *)
Definition toggleBySpec (s : System) : option System :=
  callSetTheme (opposite (resolvedTheme (context s))) s.

(** A stored value as the specification classes it: not set, or not one of
    the three tags. *)
Definition notSet (stored : option string) : Prop := stored = None.
Definition corrupted (stored : option string) : Prop :=
  exists v, stored = Some v /\ ~ isTheme v.

(** The specification's rule for the scheduled removal: the callback that
    runs first in a frame leaves in place every rule injected by a later
    change whose own removal has yet to run. *)
Definition removalSparesNewer (d : Dom.Document) : Prop :=
  forall cb rest d',
    Dom.frameCallbacks d = cb :: rest ->
    nextFrameCallback d = Js.Normal d' ->
    forall e,
      In e (Dom.head d) ->
      Dom.installedWith cb < Dom.node_id e ->
      In (Dom.RemoveTransitionStyles (Dom.node_id e)) rest ->
      In e (Dom.head d').

(** The rules the removal on lines 138-143 takes away: style elements whose
    text contains the marker. *)
Definition suppressesTransitions (e : Dom.Element) : bool :=
  String.eqb (Dom.tagName e) "style" && Js.includes (Dom.textContent e) transitionMarker.

(** ** Consistency of the hook cells *)

Definition setThemeOf (p : ThemeProviderProps) (apply : ApplyTheme) (r1 : nat) : SetTheme :=
  SetThemeFn r1 (storageKey p) apply.

Definition toggleThemeOf (p : ThemeProviderProps) (t : Theme) (apply : ApplyTheme)
  (r1 r2 : nat) : ToggleTheme :=
  ToggleThemeFn r2 t (setThemeOf p apply r1).

(** The context value of a render with state [t], [y] whose closures are
    [apply] and the [setTheme] and [toggleTheme] numbered [r1] and [r2]. *)
Definition contextOf (p : ThemeProviderProps) (t : Theme) (y : SystemTheme)
  (apply : ApplyTheme) (r1 r2 : nat) : ThemeProviderState :=
  mkState t y (computeResolvedTheme t y) (computeThemes (enableSystem p))
          (setThemeOf p apply r1) (toggleThemeOf p t apply r1 r2).

(** The cells as a render with state [t], [y] leaves them. *)
Record cells (p : ThemeProviderProps) (h : Hooks) (t : Theme) (y : SystemTheme)
  (apply : ApplyTheme) (r1 r2 : nat) : Prop := mkCells {
  cell_resolvedTheme :
    hook_resolvedTheme h = Some ((t, y), computeResolvedTheme t y);
  cell_themes :
    hook_themes h = Some (enableSystem p, computeThemes (enableSystem p));
  cell_applyTheme :
    hook_applyTheme h =
      Some ((y, disableTransitionOnChange p, attribute p, valueRef p (renders h)), apply);
  cell_effect : hook_effect h = Some (t, ap_ref apply);
  cell_setTheme :
    hook_setTheme h = Some ((storageKey p, ap_ref apply), setThemeOf p apply r1);
  cell_toggleTheme :
    hook_toggleTheme h = Some ((t, r1), toggleThemeOf p t apply r1 r2);
  cell_apply_systemTheme : ap_systemTheme apply = y;
  cell_apply_disable : ap_disableTransitionOnChange apply = disableTransitionOnChange p;
  cell_apply_attribute : ap_attribute apply = attribute p;
  cell_apply_value : ap_value apply = value p;
  cell_apply_ref : ap_ref apply <= renders h;
  cell_setTheme_ref : r1 <= renders h;
}.

(** A context value whose resolved theme is the resolution of its own
    [theme] and [systemTheme]. *)
Definition consistent (c : ThemeProviderState) : Prop :=
  resolvedTheme c = computeResolvedTheme (theme c) (systemTheme c).

(** The state of a provider between two steps of its machine. *)
Record wf (s : System) : Prop := mkWf {
  wf_cells :
    exists apply r1 r2,
      cells (props s) (hooks s) (theme (context s)) (systemTheme (context s)) apply r1 r2 /\
      context s = contextOf (props s) (theme (context s)) (systemTheme (context s)) apply r1 r2;
  wf_commits : exists older, commits s = context s :: older;
  wf_consistent : Forall consistent (commits s);
  wf_listeners : listeners (mediaQuery (window s)) <> [];
  wf_idle :
    scheduled s = false ->
    hook_theme (hooks s) = theme (context s) /\
    hook_systemTheme (hooks s) = systemTheme (context s);
}.

(** A provider at rest: nothing scheduled, and an explicit preference has
    been written over [systemTheme] by line 155. *)
Record settled (s : System) : Prop := mkSettled {
  st_wf : wf s;
  st_idle : scheduled s = false;
  st_overwritten :
    theme (context s) <> "system" -> systemTheme (context s) = theme (context s);
}.

(** ** Vocabulary of the lemmas *)

(** The theme the operating system reports (line 159). *)
Definition osTheme (dark : bool) : SystemTheme := if dark then "dark" else "light".

(** The storage after [try { localStorage.setItem(key, v) } catch (e) {}]. *)
Definition storedAfter (st : LocalStorage.t) (key v : string) : LocalStorage.t :=
  Js.tryCatch (LocalStorage.setItem st key v) st.

Definition setHookSystemTheme (v : SystemTheme) (h : Hooks) : Hooks :=
  mkHooks (hook_theme h) v (hook_resolvedTheme h) (hook_themes h) (hook_applyTheme h)
          (hook_effect h) (hook_setTheme h) (hook_toggleTheme h) (renders h).

(** What one render and commit does: [s1] comes from [s]. *)
Definition afterRender (s s1 : System) : Prop :=
  wf s1 /\
  props s1 = props s /\
  localStorage (window s1) = localStorage (window s) /\
  matches (mediaQuery (window s1)) = matches (mediaQuery (window s)) /\
  theme (context s1) = hook_theme (hooks s) /\
  systemTheme (context s1) = hook_systemTheme (hooks s) /\
  hook_theme (hooks s1) = hook_theme (hooks s) /\
  commits s1 = context s1 :: commits s /\
  ((hook_systemTheme (hooks s1) =
      computeResolvedTheme (hook_theme (hooks s)) (hook_systemTheme (hooks s)) /\
    scheduled s1 =
      negb (hook_systemTheme (hooks s) ===
            computeResolvedTheme (hook_theme (hooks s)) (hook_systemTheme (hooks s)))) \/
   (hook_theme (hooks s) = theme (context s) /\
    hook_systemTheme (hooks s) = systemTheme (context s) /\
    hook_systemTheme (hooks s1) = hook_systemTheme (hooks s) /\
    scheduled s1 = false)).

(** What the renders after a handler leave behind: [s'] comes from [s]. *)
Definition afterSettle (s s' : System) : Prop :=
  wf s' /\
  scheduled s' = false /\
  props s' = props s /\
  localStorage (window s') = localStorage (window s) /\
  matches (mediaQuery (window s')) = matches (mediaQuery (window s)) /\
  theme (context s') = hook_theme (hooks s) /\
  (exists new, commits s' = new ++ commits s /\
               Forall (fun c => theme c = hook_theme (hooks s)) new) /\
  (scheduled s = false -> s' = s) /\
  (scheduled s = true ->
   hook_theme (hooks s) <> theme (context s) \/
   hook_systemTheme (hooks s) <> systemTheme (context s) ->
   systemTheme (context s') =
     computeResolvedTheme (hook_theme (hooks s)) (hook_systemTheme (hooks s))).

(** ** Unmounting and whole sessions *)


(** A session: the provider is mounted in [w] and the events follow. *)
Definition session (p : ThemeProviderProps) (w : Window) (events : list Event)
  : option System :=
  match mount p w with
  | Some s => run events s
  | None => None
  end.

(** The nodes of the head are distinct and older than the next node to be
    created. *)
Definition wellFormed (d : Dom.Document) : Prop :=
  List.NoDup (map Dom.node_id (Dom.head d)) /\
  Forall (fun e => Dom.node_id e < Dom.nextNode d) (Dom.head d).

(** A window as the provider finds it: no listener of a provider on the
    media query yet, and a well-formed document. *)
Definition cleanWindow (w : Window) : Prop :=
  listeners (mediaQuery w) = [] /\ wellFormed (document w).




(** *** What [applyTheme] writes *)


(** [value.light || "light"] and [value.dark || "dark"] (lines 100, 116, 121). *)
Definition lightLabel (p : ThemeProviderProps) : string := light (value p) ||| "light".
Definition darkLabel (p : ThemeProviderProps) : string := dark (value p) ||| "dark".






(** *** Providers at rest in a clean window *)








(** *** More fixtures *)

(** The state a session ends in. *)
Definition sessionEnd (p : ThemeProviderProps) (w : Window) (events : list Event) : System :=
  default (unmounted p w) (session p w events).

(** Props that turn [enableSystem] off. *)
Definition noSystemProps : ThemeProviderProps :=
  mkProps None None None (Some false) None None.




(** * Properties of the hook machine *)

(** ** Equality tests *)

Lemma strictEq_refl a : (a === a) = true.
Proof. apply String.eqb_refl. Qed.

Lemma sameAttribute_refl a : sameAttribute a a = true.
Proof. destruct a; simpl; auto using strictEq_refl. Qed.

Lemma eqb_lt_false a b : a < b -> Nat.eqb a b = false.
Proof. intros H. apply Nat.eqb_neq. lia. Qed.

Lemma valueRef_same p n v : prop_value p = Some v -> valueRef p n = 0.
Proof. unfold valueRef. intros ->. reflexivity. Qed.

Lemma valueRef_fresh p n : prop_value p = None -> valueRef p n = n.
Proof. unfold valueRef. intros ->. reflexivity. Qed.

(** ** One render

    A render over consistent cells leaves consistent cells for the state it
    read, exposes the context built from them, and asks for the effect unless
    neither [theme] nor [systemTheme] changed since the render before. *)
Lemma ThemeProvider_spec p h t y ap r1 r2 :
  cells p h t y ap r1 r2 ->
  let r := ThemeProvider p h in
  exists ap' r1' r2',
    cells p (r_hooks r) (hook_theme h) (hook_systemTheme h) ap' r1' r2' /\
    r_context r = contextOf p (hook_theme h) (hook_systemTheme h) ap' r1' r2' /\
    hook_theme (r_hooks r) = hook_theme h /\
    hook_systemTheme (r_hooks r) = hook_systemTheme h /\
    renders (r_hooks r) = S (renders h) /\
    (r_effect r = Some (hook_theme h, ap') \/
     (r_effect r = None /\ hook_theme h = t /\ hook_systemTheme h = y)).
Proof.
  intros [Hr Ht Ha He Hs Hg Ay Ad Aa Av Ar R1].
  destruct h as [t' y' cr ct ca ce cs cg n]; simpl in *; subst cr ct ca ce cs cg.
  unfold ThemeProvider; simpl.
  unfold sameResolvedDeps, sameRefDeps, Js.strictEq; simpl.
  rewrite !Bool.eqb_reflx, !sameAttribute_refl, !String.eqb_refl.
  assert (Hfresh : Nat.eqb (ap_ref ap) (S n) = false) by (apply eqb_lt_false; lia).
  assert (Hfresh1 : Nat.eqb r1 (S n) = false) by (apply eqb_lt_false; lia).
  destruct (String.eqb_spec y y') as [<-|Hy];
    destruct (String.eqb_spec t t') as [<-|Htt];
    destruct (prop_value p) as [v|] eqn:Hv;
    try rewrite !(valueRef_same _ _ _ Hv); try rewrite !(valueRef_fresh _ _ Hv);
    repeat (simpl; rewrite ?Bool.eqb_reflx, ?Nat.eqb_refl, ?String.eqb_refl,
              ?Hfresh, ?Hfresh1, ?(eqb_lt_false n (S n)) by lia).
  all: do 3 eexists.
  all: split; [split; simpl; try reflexivity;
               rewrite ?(valueRef_same _ _ _ Hv), ?(valueRef_fresh _ _ Hv);
               try reflexivity; try assumption; try lia | ].
  all: split; [reflexivity | ].
  all: repeat (split; [reflexivity | ]).
  all: first [left; reflexivity | right; auto].
Qed.

(** The first render, over empty cells, always asks for the effect. *)
Lemma ThemeProvider_first p t y :
  let r := ThemeProvider p (mkHooks t y None None None None None None 0) in
  exists ap' r1' r2',
    cells p (r_hooks r) t y ap' r1' r2' /\
    r_context r = contextOf p t y ap' r1' r2' /\
    hook_theme (r_hooks r) = t /\
    hook_systemTheme (r_hooks r) = y /\
    r_effect r = Some (t, ap').
Proof.
  unfold ThemeProvider; simpl.
  do 3 eexists.
  split; [split; simpl; try reflexivity; lia | ].
  repeat (split; [reflexivity | ]). reflexivity.
Qed.

Lemma applyTheme_fst f t d : fst (applyTheme f t d) = applyTheme_resolved f t.
Proof. reflexivity. Qed.

Arguments applyTheme : simpl never.

Lemma applyTheme_resolved_compute f t :
  applyTheme_resolved f t = computeResolvedTheme t (ap_systemTheme f).
Proof. reflexivity. Qed.

Lemma addEventListener_nonempty h m : listeners (addEventListener h m) <> [].
Proof.
  unfold addEventListener.
  destruct (existsb _ (listeners m)) eqn:E.
  - destruct (listeners m); [discriminate | congruence].
  - simpl. destruct (listeners m); discriminate.
Qed.

Lemma cells_setState p h t y ap r1 r2 t' y' :
  cells p h t y ap r1 r2 ->
  cells p (mkHooks t' y' (hook_resolvedTheme h) (hook_themes h) (hook_applyTheme h)
                   (hook_effect h) (hook_setTheme h) (hook_toggleTheme h) (renders h))
        t y ap r1 r2.
Proof. intros []. split; simpl; assumption. Qed.

Lemma consistent_contextOf p t y ap r1 r2 : consistent (contextOf p t y ap r1 r2).
Proof. reflexivity. Qed.

Lemma addEventListener_matches h m : matches (addEventListener h m) = matches m.
Proof. unfold addEventListener. destruct (existsb _ _); reflexivity. Qed.


(** The effect touches the document and the listeners, and stores the theme
    that [applyTheme] resolved into [systemTheme] (line 155). *)
Lemma runEffect_fields n t ap s :
  let s1 := runEffect n t ap s in
  props s1 = props s /\
  context s1 = context s /\
  commits s1 = commits s /\
  localStorage (window s1) = localStorage (window s) /\
  matches (mediaQuery (window s1)) = matches (mediaQuery (window s)) /\
  listeners (mediaQuery (window s1)) <> [] /\
  hooks s1 = setHookSystemTheme (computeResolvedTheme t (ap_systemTheme ap)) (hooks s) /\
  scheduled s1 =
    scheduled s || negb (hook_systemTheme (hooks s) === computeResolvedTheme t (ap_systemTheme ap)).
Proof.
  unfold runEffect.
  destruct (cleanup s); simpl; rewrite ?applyTheme_fst, ?addEventListener_matches;
    repeat (split; [reflexivity | ]);
    (split; [apply addEventListener_nonempty | split; reflexivity]).
Qed.


(** ** One render with its commit and effect *)

Lemma renderAndCommit_spec s : wf s -> afterRender s (renderAndCommit s).
Proof.
  intros [(ap & r1 & r2 & C & Hc) [older Hcm] Hall Hl Hidle].
  destruct (ThemeProvider_spec _ _ _ _ _ _ _ C) as (ap' & r1' & r2' & C' & Hctx & Ht & Hy & Hn & Heff).
  unfold afterRender, renderAndCommit.
  generalize dependent (ThemeProvider (props s) (hooks s)). intros r C' Hctx Ht Hy Hn Heff.
  destruct Heff as [E | (E & Et & Ey)]; rewrite E.
  - match goal with |- context [runEffect ?n ?t ?a ?s0] =>
      destruct (runEffect_fields n t a s0) as (Fp & Fc & Fm & Fl & Fq & Fn & Fh & Fs);
      generalize dependent (runEffect n t a s0) end.
    simpl. intros s1 Fp Fc Fm Fl Fq Fn Fh Fs.
    rewrite (cell_apply_systemTheme _ _ _ _ _ _ _ C') in Fh, Fs. rewrite Hy in Fs.
    rewrite Fp, Fc, Fm, Fl, Fq, Fh, Fs, Hctx. simpl. rewrite Ht.
    split; [ | repeat (split; [reflexivity | ]); left; split; reflexivity ].
    split; rewrite ?Fp, ?Fc, ?Fm, ?Fh, ?Fs, ?Hctx; simpl.
    + exists ap', r1', r2'. split; [ | reflexivity].
      apply cells_setState with (t' := hook_theme (hooks s))
          (y' := computeResolvedTheme (hook_theme (hooks s)) (hook_systemTheme (hooks s))) in C'.
      unfold setHookSystemTheme. rewrite Ht. exact C'.
    + eexists; reflexivity.
    + constructor; [apply consistent_contextOf | exact Hall].
    + exact Fn.
    + intros Hs. rewrite Ht. split; [reflexivity | ].
      apply negb_false_iff, String.eqb_eq in Hs. symmetry; exact Hs.
  - simpl. rewrite Hctx. simpl.
    split; [ | repeat (split; [try reflexivity; try assumption | ]); right; auto ].
    split; simpl.
    + exists ap', r1', r2'. split; [exact C' | reflexivity].
    + eexists; reflexivity.
    + constructor; [apply consistent_contextOf | exact Hall].
    + exact Hl.
    + intros _. split; assumption.
Qed.

Lemma computeResolvedTheme_system y : computeResolvedTheme "system" y = y.
Proof. reflexivity. Qed.

Lemma computeResolvedTheme_explicit t y : t <> "system" -> computeResolvedTheme t y = t.
Proof.
  intros H. unfold computeResolvedTheme, Js.strictEq.
  apply String.eqb_neq in H. rewrite H. reflexivity.
Qed.

Lemma computeResolvedTheme_idem t y :
  computeResolvedTheme t (computeResolvedTheme t y) = computeResolvedTheme t y.
Proof.
  unfold computeResolvedTheme. destruct (t === "system"); reflexivity.
Qed.


(** ** The renders come to rest

    After the effect has stored the resolved theme, resolving again gives the
    same theme, so the second effect changes nothing: two rounds are enough. *)
Lemma settle_spec s fuel :
  wf s -> 2 <= fuel -> exists s', settle fuel s = Some s' /\ afterSettle s s'.
Proof.
  intros W Hf.
  destruct fuel as [|[|fuel]]; try lia. clear Hf.
  unfold afterSettle.
  destruct (scheduled s) eqn:Hs.
  2:{ exists s. simpl. rewrite Hs. destruct (W.(wf_idle s) Hs) as [Ht Hy].
      repeat (split; [first [reflexivity | assumption | symmetry; assumption] | ]).
      split; [exists []; split; [reflexivity | constructor] | ].
      split; [reflexivity | discriminate]. }
  destruct (renderAndCommit_spec s W) as (W1 & P1 & L1 & M1 & T1 & Y1 & H1 & C1 & D1).
  cbn [settle]. rewrite Hs.
  destruct (scheduled (renderAndCommit s)) eqn:Hs1.
  - (* the effect wrote a different systemTheme: one more render *)
    destruct D1 as [[Dy Ds] | (_ & _ & _ & Ds)]; [ | congruence].
    symmetry in Ds. apply negb_true_iff, String.eqb_neq in Ds.
    destruct (renderAndCommit_spec _ W1) as (W2 & P2 & L2 & M2 & T2 & Y2 & H2 & C2 & D2).
    exists (renderAndCommit (renderAndCommit s)).
    assert (Hs2 : scheduled (renderAndCommit (renderAndCommit s)) = false).
    { destruct D2 as [[_ Ds2] | (_ & _ & _ & Ds2)]; [ | exact Ds2].
      rewrite Ds2, Dy, H1, computeResolvedTheme_idem.
      unfold Js.strictEq. rewrite String.eqb_refl. reflexivity. }
    split; [destruct fuel; cbn [settle]; rewrite ?Hs1, ?Hs2; reflexivity | ].
    split; [exact W2 | ]. split; [exact Hs2 | ].
    split; [congruence | ]. split; [congruence | ]. split; [congruence | ].
    split; [congruence | ].
    split.
    { exists [context (renderAndCommit (renderAndCommit s)); context (renderAndCommit s)].
      split; [rewrite C2, C1; reflexivity | ].
      repeat constructor; congruence. }
    split; [discriminate | ].
    intros _ _. rewrite Y2. exact Dy.
  - exists (renderAndCommit s).
    split; [cbn [settle]; rewrite ?Hs1; reflexivity | ].
    split; [exact W1 | ]. split; [exact Hs1 | ].
    repeat (split; [assumption | ]).
    split.
    { exists [context (renderAndCommit s)]. split; [rewrite C1; reflexivity | ].
      repeat constructor; assumption. }
    split; [discriminate | ].
    intros _ Hd. rewrite Y1.
    destruct D1 as [[Dy Ds] | (Et & Ey & _ & _)].
    + symmetry in Ds. apply negb_false_iff, String.eqb_eq in Ds. exact Ds.
    + destruct Hd; contradiction.
Qed.

(** *** The primitives keep the cells consistent *)

Lemma wf_withDocument d s : wf s -> wf (withDocument d s).
Proof. intros []. split; assumption. Qed.

Lemma wf_withLocalStorage st s : wf s -> wf (withLocalStorage st s).
Proof. intros []. split; assumption. Qed.

Lemma wf_withMediaQuery m s : listeners m <> [] -> wf s -> wf (withMediaQuery m s).
Proof. intros Hm []. split; assumption. Qed.

Lemma wf_setThemeState v s : wf s -> wf (setThemeState v s).
Proof.
  intros [(ap & r1 & r2 & C & Hc) Hcm Hall Hl Hidle].
  split; simpl; try assumption.
  - exists ap, r1, r2. split; [apply cells_setState; exact C | exact Hc].
  - intros Hs. apply orb_false_iff in Hs as [Hs Hv].
    apply negb_false_iff, String.eqb_eq in Hv.
    destruct (Hidle Hs) as [Ht Hy]. split; congruence.
Qed.

Lemma wf_setSystemTheme v s : wf s -> wf (setSystemTheme v s).
Proof.
  intros [(ap & r1 & r2 & C & Hc) Hcm Hall Hl Hidle].
  split; simpl; try assumption.
  - exists ap, r1, r2. split; [apply cells_setState; exact C | exact Hc].
  - intros Hs. apply orb_false_iff in Hs as [Hs Hv].
    apply negb_false_iff, String.eqb_eq in Hv.
    destruct (Hidle Hs) as [Ht Hy]. split; congruence.
Qed.

(** *** Mounting *)

Lemma renderAndCommit_first p w t y :
  let s1 := renderAndCommit
              (mkSystem p (mkHooks t y None None None None None None 0)
                        w initialState None false []) in
  wf s1 /\
  props s1 = p /\
  localStorage (window s1) = localStorage w /\
  matches (mediaQuery (window s1)) = matches (mediaQuery w) /\
  theme (context s1) = t /\
  systemTheme (context s1) = y /\
  hook_theme (hooks s1) = t /\
  commits s1 = [context s1] /\
  hook_systemTheme (hooks s1) = computeResolvedTheme t y /\
  scheduled s1 = negb (y === computeResolvedTheme t y).
Proof.
  destruct (ThemeProvider_first p t y) as (ap' & r1' & r2' & C' & Hctx & Ht & Hy & E).
  unfold renderAndCommit. cbn [props hooks].
  generalize dependent (ThemeProvider p (mkHooks t y None None None None None None 0)).
  intros r C' Hctx Ht Hy E. rewrite E.
  match goal with |- context [runEffect ?n ?t ?a ?s0] =>
    destruct (runEffect_fields n t a s0) as (Fp & Fc & Fm & Fl & Fq & Fn & Fh & Fs);
    generalize dependent (runEffect n t a s0) end.
  simpl. intros s1 Fp Fc Fm Fl Fq Fn Fh Fs.
  rewrite (cell_apply_systemTheme _ _ _ _ _ _ _ C') in Fh, Fs. rewrite Hy in Fs.
  rewrite Fp, Fc, Fm, Fl, Fq, Fh, Fs, Hctx. simpl. rewrite Ht.
  split; [ | repeat (split; [reflexivity | ]); reflexivity ].
  split; rewrite ?Fp, ?Fc, ?Fm, ?Fh, ?Fs, ?Hctx; simpl.
  - exists ap', r1', r2'. split; [ | reflexivity].
    apply cells_setState with (t' := t) (y' := computeResolvedTheme t y) in C'.
    unfold setHookSystemTheme. rewrite Ht. exact C'.
  - eexists; reflexivity.
  - constructor; [apply consistent_contextOf | constructor].
  - exact Fn.
  - intros Hs. rewrite Ht. split; [reflexivity | ].
    apply negb_false_iff, String.eqb_eq in Hs. symmetry; exact Hs.
Qed.

Lemma renderBudget_enough : 2 <= renderBudget.
Proof. unfold renderBudget. lia. Qed.



Arguments settle : simpl never.

Lemma mount_spec p w :
  exists s,
    mount p w = Some s /\
    settled s /\
    props s = p /\
    localStorage (window s) = localStorage w /\
    matches (mediaQuery (window s)) = matches (mediaQuery w) /\
    theme (context s) = initialTheme p (Some w) /\
    Forall (fun c => theme c = initialTheme p (Some w)) (commits s) /\
    systemTheme (context s) =
      computeResolvedTheme (initialTheme p (Some w)) (initialSystemTheme (Some w)).
Proof.
  unfold mount.
  set (t := initialTheme p (Some w)). set (y := initialSystemTheme (Some w)).
  destruct (renderAndCommit_first p w t y)
    as (W1 & P1 & L1 & M1 & T1 & Y1 & H1 & C1 & S1 & D1).
  destruct (settle_spec _ renderBudget W1 renderBudget_enough)
    as (s & Hs & W & Hi & P & L & M & T & (new & Hn & Hall) & Hsame & Hdiff).
  exists s. split; [exact Hs | ].
  assert (Hsys : systemTheme (context s) = computeResolvedTheme t y).
  { destruct (scheduled (renderAndCommit _)) eqn:Hsch.
    - rewrite Hdiff; [ | reflexivity | ].
      + rewrite H1, S1. apply computeResolvedTheme_idem.
      + right. rewrite S1, Y1. symmetry in D1.
        apply negb_true_iff, String.eqb_neq in D1. congruence.
    - rewrite (Hsame eq_refl), Y1. symmetry in D1.
      apply negb_false_iff, String.eqb_eq in D1. exact D1. }
  split.
  { split; [exact W | exact Hi | ].
    intros Hne. rewrite Hsys, T, H1. rewrite T, H1 in Hne.
    apply computeResolvedTheme_explicit. exact Hne. }
  split; [congruence | ]. split; [congruence | ]. split; [congruence | ].
  split; [congruence | ].
  split; [ | exact Hsys].
  rewrite Hn, C1. apply Forall_app. split.
  - rewrite H1 in Hall. exact Hall.
  - constructor; [exact T1 | constructor].
Qed.

(** *** setTheme *)


Lemma setTheme_spec s v :
  wf s ->
  exists s1,
    setTheme (setThemeFn (context s)) v s = Js.Normal s1 /\
    wf s1 /\
    props s1 = props s /\
    context s1 = context s /\
    commits s1 = commits s /\
    hook_theme (hooks s1) = v /\
    hook_systemTheme (hooks s1) = hook_systemTheme (hooks s) /\
    scheduled s1 = scheduled s || negb (hook_theme (hooks s) === v) /\
    localStorage (window s1) =
      storedAfter (localStorage (window s)) (storageKey (props s)) v /\
    matches (mediaQuery (window s1)) = matches (mediaQuery (window s)).
Proof.
  intros W. destruct (wf_cells s W) as (ap & r1 & r2 & C & Hc).
  rewrite Hc. cbn [setThemeFn contextOf setThemeOf setTheme].
  eexists. split; [reflexivity | ].
  unfold storedAfter, LocalStorage.setItem.
  destruct (LocalStorage.blocked (localStorage (window s)));
    [ | destruct (LocalStorage.full (localStorage (window s)))]; cbn [Js.bind Js.tryCatch].
  all: split; [ apply wf_withDocument, wf_setThemeState;
                try apply wf_withLocalStorage; exact W | ].
  all: rewrite <- Hc; repeat (split; [reflexivity | ]); reflexivity.
Qed.

Lemma callSetTheme_spec s v :
  settled s ->
  exists s',
    callSetTheme v s = Some s' /\
    settled s' /\
    props s' = props s /\
    theme (context s') = v /\
    localStorage (window s') =
      storedAfter (localStorage (window s)) (storageKey (props s)) v /\
    matches (mediaQuery (window s')) = matches (mediaQuery (window s)) /\
    (exists new, commits s' = (new ++ commits s)%list /\ Forall (fun c => theme c = v) new) /\
    (v = "system" -> systemTheme (context s') = systemTheme (context s)).
Proof.
  intros [W Hi Ho]. unfold callSetTheme.
  destruct (setTheme_spec s v W) as (s1 & E & W1 & P1 & X1 & C1 & T1 & Y1 & S1 & L1 & M1).
  rewrite E.
  destruct (settle_spec s1 renderBudget W1 renderBudget_enough)
    as (s' & Hs & W' & Hi' & P' & L' & M' & T' & (new & Hn & Hall) & Hsame & Hdiff).
  destruct (wf_idle s W Hi) as [Ht Hy].
  exists s'. split; [exact Hs | ].
  assert (Hsys : systemTheme (context s') =
                 if scheduled s1 then computeResolvedTheme v (systemTheme (context s))
                 else systemTheme (context s)).
  { destruct (scheduled s1) eqn:Hsch.
    - rewrite Hdiff; [congruence | reflexivity | ].
      left. rewrite Hi in S1. simpl in S1. symmetry in S1.
      apply negb_true_iff, String.eqb_neq in S1. congruence.
    - rewrite (Hsame eq_refl). congruence. }
  assert (Hv : scheduled s1 = false -> theme (context s) = v).
  { intros Hsch. rewrite Hsch, Hi in S1. simpl in S1. symmetry in S1.
    apply negb_false_iff, String.eqb_eq in S1. congruence. }
  split.
  { split; [exact W' | exact Hi' | ].
    rewrite T', T1, Hsys. intros Hne.
    destruct (scheduled s1).
    - apply computeResolvedTheme_explicit. exact Hne.
    - rewrite <- (Hv eq_refl) in *. apply Ho. exact Hne. }
  split; [congruence | ]. split; [congruence | ]. split; [congruence | ].
  split; [congruence | ].
  split.
  { exists new. split; [congruence | ]. rewrite T1 in Hall. exact Hall. }
  intros ->. rewrite Hsys. destruct (scheduled s1); reflexivity.
Qed.

(** *** toggleTheme *)

Lemma callToggleTheme_spec s :
  wf s ->
  callToggleTheme s =
  callSetTheme (if theme (context s) === "light" then "dark" else "light") s.
Proof.
  intros W. destruct (wf_cells s W) as (ap & r1 & r2 & C & Hc).
  unfold callToggleTheme, callSetTheme. rewrite Hc. reflexivity.
Qed.

(** *** Operating-system notifications *)


Lemma handleSystemThemeChange_spec h b s :
  wf s ->
  let s1 := handleSystemThemeChange h b s in
  wf s1 /\
  props s1 = props s /\
  context s1 = context s /\
  commits s1 = commits s /\
  hook_theme (hooks s1) = hook_theme (hooks s) /\
  hook_systemTheme (hooks s1) = osTheme b /\
  scheduled s1 = scheduled s || negb (hook_systemTheme (hooks s) === osTheme b) /\
  localStorage (window s1) = localStorage (window s) /\
  mediaQuery (window s1) = mediaQuery (window s).
Proof.
  intros W. unfold handleSystemThemeChange.
  destruct (hd_theme h === "system").
  - split; [apply wf_withDocument, wf_setSystemTheme; exact W | ].
    repeat (split; [reflexivity | ]); reflexivity.
  - split; [apply wf_setSystemTheme; exact W | ].
    repeat (split; [reflexivity | ]); reflexivity.
Qed.

Lemma dispatch_spec b l s :
  wf s ->
  let s1 := fold_left (fun s h => handleSystemThemeChange h b s) l s in
  wf s1 /\
  props s1 = props s /\
  context s1 = context s /\
  commits s1 = commits s /\
  hook_theme (hooks s1) = hook_theme (hooks s) /\
  localStorage (window s1) = localStorage (window s) /\
  mediaQuery (window s1) = mediaQuery (window s) /\
  (l <> [] ->
   hook_systemTheme (hooks s1) = osTheme b /\
   scheduled s1 = scheduled s || negb (hook_systemTheme (hooks s) === osTheme b)).
Proof.
  revert s. induction l as [|h l IH]; intros s W.
  - simpl. repeat (split; [first [assumption | reflexivity] | ]). congruence.
  - cbn [fold_left].
    destruct (handleSystemThemeChange_spec h b s W)
      as (W1 & P1 & X1 & C1 & T1 & Y1 & S1 & L1 & M1).
    destruct (IH _ W1) as (W2 & P2 & X2 & C2 & T2 & L2 & M2 & N2).
    split; [exact W2 | ].
    do 6 (split; [congruence | ]).
    intros _. destruct l as [|h' l'].
    + simpl. split; assumption.
    + destruct N2 as [Y2 S2]; [discriminate | ].
      split; [exact Y2 | ].
      rewrite S2, S1, Y1. unfold Js.strictEq at 1. rewrite String.eqb_refl.
      apply orb_false_r.
Qed.

Lemma osThemeChange_spec b s :
  settled s ->
  exists s',
    osThemeChange b s = Some s' /\
    settled s' /\
    props s' = props s /\
    theme (context s') = theme (context s) /\
    localStorage (window s') = localStorage (window s) /\
    matches (mediaQuery (window s')) = b /\
    (exists new, commits s' = (new ++ commits s)%list /\
                 Forall (fun c => theme c = theme (context s)) new) /\
    systemTheme (context s') = computeResolvedTheme (theme (context s)) (osTheme b).
Proof.
  intros [W Hi Ho]. unfold osThemeChange.
  set (s0 := withMediaQuery _ s).
  assert (W0 : wf s0) by (apply wf_withMediaQuery; [apply (wf_listeners s W) | exact W]).
  destruct (dispatch_spec b (listeners (mediaQuery (window s))) s0 W0)
    as (W1 & P1 & X1 & C1 & T1 & L1 & M1 & N1).
  destruct (N1 (wf_listeners s W)) as [Y1 S1].
  generalize dependent (fold_left (fun s h => handleSystemThemeChange h b s)
                                  (listeners (mediaQuery (window s))) s0).
  intros s1 W1 P1 X1 C1 T1 L1 M1 _ Y1 S1.
  subst s0. simpl in *.
  destruct (settle_spec s1 renderBudget W1 renderBudget_enough)
    as (s' & Hs & W' & Hi' & P' & L' & M' & T' & (new & Hn & Hall) & Hsame & Hdiff).
  destruct (wf_idle s W Hi) as [Ht Hy].
  exists s'. split; [exact Hs | ].
  assert (Hsys : systemTheme (context s') =
                 computeResolvedTheme (theme (context s)) (osTheme b)).
  { rewrite Hi in S1. simpl in S1.
    destruct (scheduled s1) eqn:Hsch.
    - rewrite Hdiff; [congruence | reflexivity | ].
      right. symmetry in S1. apply negb_true_iff, String.eqb_neq in S1. congruence.
    - rewrite (Hsame eq_refl), X1.
      symmetry in S1. apply negb_false_iff, String.eqb_eq in S1.
      rewrite Hy in S1. rewrite <- S1.
      unfold computeResolvedTheme.
      destruct (String.eqb_spec (theme (context s)) "system") as [e|n];
        unfold Js.strictEq; [rewrite e; reflexivity | ].
      apply String.eqb_neq in n as n'. rewrite n'. apply Ho. exact n. }
  split.
  { split; [exact W' | exact Hi' | ].
    rewrite Hsys, T', T1, Ht. apply computeResolvedTheme_explicit. }
  split; [congruence | ]. split; [congruence | ]. split; [congruence | ].
  split; [rewrite M', M1; reflexivity | ].
  split; [ | exact Hsys].
  exists new. split; [congruence | ]. rewrite T1, Ht in Hall. exact Hall.
Qed.

(** *** Animation frames *)

Lemma animationFrame_spec s s' :
  settled s -> animationFrame s = Some s' ->
  settled s' /\ context s' = context s /\ commits s' = commits s /\
  props s' = props s /\ localStorage (window s') = localStorage (window s) /\
  mediaQuery (window s') = mediaQuery (window s).
Proof.
  intros [W Hi Ho]. unfold animationFrame.
  destruct (runFrameCallbacks _ _) as [d|]; [ | discriminate].
  intros [= <-].
  split; [ | repeat (split; [reflexivity | ]); reflexivity].
  split; [apply wf_withDocument; exact W | exact Hi | exact Ho].
Qed.

(** *** Every reachable state is settled *)

Lemma reachable_settled s : reachable s -> settled s.
Proof.
  induction 1 as [p w s Hm | t s s' _ IH Hc | s s' _ IH Hc | b s s' _ IH Hc | s s' _ IH Hc].
  - destruct (mount_spec p w) as (s0 & E & Hs & _). congruence.
  - destruct (callSetTheme_spec s t IH) as (s0 & E & Hs & _). congruence.
  - rewrite (callToggleTheme_spec s (st_wf s IH)) in Hc.
    destruct (callSetTheme_spec s (if theme (context s) === "light" then "dark" else "light") IH)
      as (s0 & E & Hs & _). congruence.
  - destruct (osThemeChange_spec b s IH) as (s0 & E & Hs & _). congruence.
  - apply (animationFrame_spec s s' IH Hc).
Qed.

(** *** The scheduled removal *)

Lemma setHead_setHead h h' d : Dom.setHead h (Dom.setHead h' d) = Dom.setHead h d.
Proof. reflexivity. Qed.

Lemma setHead_head d : Dom.setHead (Dom.head d) d = d.
Proof. destruct d; reflexivity. Qed.

Lemma removeFirst_app pre e rest :
  ~ In (Dom.node_id e) (map Dom.node_id pre) ->
  Dom.removeFirst (Dom.node_id e) (pre ++ e :: rest) = Some (pre ++ rest).
Proof.
  induction pre as [|x pre IH]; simpl; intros Hn.
  - rewrite Nat.eqb_refl. reflexivity.
  - destruct (Nat.eqb_spec (Dom.node_id x) (Dom.node_id e)) as [E|_].
    + exfalso. apply Hn. left. exact E.
    + rewrite IH; [reflexivity | tauto].
Qed.


Lemma removal_fold h : forall pre d,
  List.NoDup (map Dom.node_id (pre ++ h)) ->
  fold_left removalStep
    (List.filter (fun e => String.eqb (Dom.tagName e) "style") h)
    (Js.Normal (Dom.setHead (pre ++ h) d)) =
  Js.Normal (Dom.setHead (pre ++ List.filter (fun e => negb (suppressesTransitions e)) h) d).
Proof.
  induction h as [|e h IH]; intros pre d Hnd.
  - reflexivity.
  - assert (Hnd' : List.NoDup (map Dom.node_id ((pre ++ [e]) ++ h)))
      by (rewrite <- app_assoc; exact Hnd).
    cbn [List.filter]. unfold suppressesTransitions at 1.
    destruct (String.eqb (Dom.tagName e) "style") eqn:Etag; cbn [andb negb].
    + cbn [fold_left]. unfold removalStep at 2. cbn [Js.bind].
      destruct (Js.includes (Dom.textContent e) transitionMarker) eqn:Einc; cbn [negb].
      * unfold Dom.removeChild. cbn [Dom.head Dom.setHead].
        rewrite removeFirst_app.
        -- rewrite setHead_setHead. apply IH.
           rewrite map_app in Hnd |- *. simpl in Hnd.
           apply NoDup_remove_1 in Hnd. exact Hnd.
        -- rewrite map_app in Hnd. simpl in Hnd.
           apply NoDup_remove_2 in Hnd. intros Hin. apply Hnd.
           apply in_or_app. left. exact Hin.
      * specialize (IH (pre ++ [e]) d Hnd').
        rewrite <- !app_assoc in IH. exact IH.
    + specialize (IH (pre ++ [e]) d Hnd').
      rewrite <- !app_assoc in IH. exact IH.
Qed.

Lemma removeTransitionStyles_spec d :
  List.NoDup (map Dom.node_id (Dom.head d)) ->
  removeTransitionStyles d =
  Js.Normal (Dom.setHead (List.filter (fun e => negb (suppressesTransitions e)) (Dom.head d)) d).
Proof.
  intros Hnd. unfold removeTransitionStyles, Dom.querySelectorAll_style.
  rewrite <- (setHead_head d) at 2.
  apply (removal_fold (Dom.head d) [] d). exact Hnd.
Qed.

(** *** Consequences for reachable states *)

Lemma mounted_eq w : mount defaultProps w = Some (mounted w).
Proof.
  unfold mounted. destruct (mount_spec defaultProps w) as (s & E & _).
  rewrite E. reflexivity.
Qed.

Lemma mounted_reachable w : reachable (mounted w).
Proof. apply reach_mount with (p := defaultProps) (w := w). apply mounted_eq. Qed.

Lemma wf_context_consistent s : wf s -> consistent (context s).
Proof.
  intros W. destruct (wf_commits s W) as [older E].
  pose proof (wf_consistent s W) as F. rewrite E in F.
  apply Forall_cons_iff in F. tauto.
Qed.

Lemma consistent_explicit c : consistent c -> theme c <> "system" -> resolvedTheme c = theme c.
Proof. unfold consistent. intros -> H. apply computeResolvedTheme_explicit. exact H. Qed.

Lemma consistent_system c : consistent c -> theme c = "system" -> resolvedTheme c = systemTheme c.
Proof. unfold consistent. intros -> ->. reflexivity. Qed.

Lemma Forall_app_l {A} (P : A -> Prop) (l1 l2 : list A) : Forall P (l1 ++ l2) -> Forall P l1.
Proof. intros H. apply Forall_app in H. tauto. Qed.

Lemma osThemeChanges_spec events : forall s,
  settled s ->
  exists s',
    osThemeChanges events s = Some s' /\
    settled s' /\
    props s' = props s /\
    theme (context s') = theme (context s) /\
    (exists new, commits s' = new ++ commits s) /\
    (forall b, List.last events b = b -> events <> [] ->
       systemTheme (context s') = computeResolvedTheme (theme (context s)) (osTheme b)).
Proof.
  induction events as [|e events IH]; intros s Hs.
  - exists s. split; [reflexivity | ]. split; [exact Hs | ].
    do 2 (split; [reflexivity | ]). split; [exists []; reflexivity | ].
    intros b _ Hne. congruence.
  - destruct (osThemeChange_spec e s Hs)
      as (s1 & E1 & Hs1 & P1 & T1 & L1 & M1 & (new1 & C1 & _) & Y1).
    destruct (IH s1 Hs1) as (s' & E' & Hs' & P' & T' & (new' & C') & Y').
    exists s'. cbn [osThemeChanges]. rewrite E1.
    split; [exact E' | ]. split; [exact Hs' | ].
    split; [congruence | ]. split; [congruence | ].
    split; [exists (new' ++ new1); rewrite C', C1, app_assoc; reflexivity | ].
    intros b Hb _. destruct events as [|e' events'].
    + simpl in Hb. rewrite <- Hb. simpl in E'. injection E' as <-. exact Y1.
    + rewrite <- T1. apply Y'; [exact Hb | discriminate].
Qed.

(** ** Further properties *)




(** * The claims of the specification *)

(** ** The accessor *)

(** C1 (the code departs from the claim).  Called where no [ThemeProvider]
    is above it, [useTheme] does not throw: [useContext] hands out the
    default value the context was created with, [initialState], which is not
    [undefined], so the guard on line 214 lets it through.  The accessor
    throws only below a provider whose value is [undefined]. *)
Theorem useTheme_without_provider_returns_initialState :
  useTheme [] = Js.Normal initialState /\
  (forall providers m,
     useTheme providers = Js.Throw m -> exists rest, providers = None :: rest).
Proof.
  split; [reflexivity | ].
  intros providers m H. destruct providers as [|[c|] rest]; try discriminate.
  exists rest. reflexivity.
Qed.

(** ** The operating system's theme *)

(** C2 (the code departs from the claim).  Preference ["dark"] stored, the
    operating system dark at mount and then reporting light: the first commit
    after the notification exposes [systemTheme = "light"], then the effect
    runs again and line 155 writes the resolved theme over it, so the provider
    comes to rest with [systemTheme = "dark"] while the operating system says
    light.  A preference change alters [systemTheme] the same way: under a
    light operating system, [setTheme("dark")] leaves [systemTheme = "dark"],
    and a later [setTheme("system")] resolves to dark. *)
Theorem systemTheme_is_overwritten_by_the_effect :
  let s := mounted (freshWindow (Some "dark") true) in
  option_map observe (osThemeChange false s) =
    Some (mkObservation "dark" "dark" "dark" false (Some "dark") (Some "dark")) /\
  option_map (fun s' => map systemTheme (commits s')) (osThemeChange false s) =
    Some ["dark"; "light"; "dark"] /\
  option_map observe (run [SetThemeEvent "dark"] (mounted (freshWindow None false))) =
    Some (mkObservation "dark" "dark" "dark" false (Some "dark") (Some "dark")) /\
  option_map observe
    (run [SetThemeEvent "dark"; SetThemeEvent "system"] (mounted (freshWindow None false))) =
    Some (mkObservation "system" "dark" "dark" false (Some "dark") (Some "system")).
Proof.
  cbv zeta. repeat split; vm_compute; reflexivity.
Qed.

(** X2.  In every state the provider comes to rest in, an explicit
    preference has replaced [systemTheme]: the two are equal. *)
Lemma explicit_preference_replaces_systemTheme s :
  reachable s -> theme (context s) <> "system" ->
  systemTheme (context s) = theme (context s).
Proof. intros H. apply (st_overwritten s (reachable_settled s H)). Qed.

(** X3.  After a notification the renders come to rest with the preference
    unchanged and [systemTheme] the reported theme under preference
    ["system"], and the preference itself otherwise. *)
Lemma osThemeChange_systemTheme s b :
  reachable s ->
  exists s', osThemeChange b s = Some s' /\
             theme (context s') = theme (context s) /\
             systemTheme (context s') =
               computeResolvedTheme (theme (context s)) (osTheme b).
Proof.
  intros H. destruct (osThemeChange_spec b s (reachable_settled s H))
    as (s' & E & _ & _ & T & _ & _ & _ & Y).
  exists s'. auto.
Qed.

Lemma explicit_preference_replaces_systemTheme_witness :
  systemTheme (context (mounted (freshWindow (Some "dark") false))) =
  theme (context (mounted (freshWindow (Some "dark") false))).
Proof.
  apply (explicit_preference_replaces_systemTheme (mounted (freshWindow (Some "dark") false))).
  - apply reach_mount with (p := defaultProps) (w := freshWindow (Some "dark") false).
    vm_compute. reflexivity.
  - vm_compute. discriminate.
Defined.

Lemma osThemeChange_systemTheme_witness :
  exists s',
    osThemeChange true (mounted (freshWindow (Some "light") false)) = Some s' /\
    theme (context s') = theme (context (mounted (freshWindow (Some "light") false))) /\
    systemTheme (context s') =
      computeResolvedTheme (theme (context (mounted (freshWindow (Some "light") false))))
                           (osTheme true).
Proof.
  apply (osThemeChange_systemTheme (mounted (freshWindow (Some "light") false))).
  apply reach_mount with (p := defaultProps) (w := freshWindow (Some "light") false).
  vm_compute. reflexivity.
Defined.

(** ** toggleTheme *)

(** C3, counterexample.  Mounted with nothing stored under a light operating
    system the preference is ["system"] and the resolved theme ["light"]:
    [toggleTheme()] sets the preference to ["light"], where [setTheme] of the
    opposite of the resolved theme sets ["dark"]. *)
Lemma toggleTheme_from_system_light_sets_light :
  let s := mounted (freshWindow None false) in
  theme (context s) = "system" /\
  resolvedTheme (context s) = "light" /\
  option_map observe (callToggleTheme s) =
    Some (mkObservation "light" "light" "light" false (Some "light") (Some "light")) /\
  option_map observe (toggleBySpec s) =
    Some (mkObservation "dark" "dark" "dark" false (Some "dark") (Some "dark")) /\
  callToggleTheme s <> toggleBySpec s.
Proof.
  cbv zeta. repeat split; try (vm_compute; reflexivity).
  intros H. apply (f_equal (option_map observe)) in H.
  vm_compute in H. discriminate.
Qed.

(** C3, amended.  In every reachable state [toggleTheme()] is [setTheme] of
    ["dark"] when the preference is ["light"] and of ["light"] otherwise.  It
    is [setTheme] of the opposite of the resolved theme when the preference
    is explicit, and when it is ["system"] with the resolved theme dark; under
    preference ["system"] it always sets ["light"].  The call always goes
    through and leaves an explicit preference. *)
Theorem toggleTheme_follows_the_preference (s : System) (H : reachable s) :
  callToggleTheme s =
    callSetTheme (if theme (context s) === "light" then "dark" else "light") s /\
  (theme (context s) = "light" \/ theme (context s) = "dark" \/
   (theme (context s) = "system" /\ resolvedTheme (context s) = "dark") ->
   callToggleTheme s = toggleBySpec s) /\
  (theme (context s) = "system" -> callToggleTheme s = callSetTheme "light" s) /\
  (exists s', callToggleTheme s = Some s' /\
              (theme (context s') = "light" \/ theme (context s') = "dark")).
Proof.
  pose proof (reachable_settled s H) as [W Hi Ho].
  pose proof (callToggleTheme_spec s W) as E.
  pose proof (wf_context_consistent s W) as Hc.
  split; [exact E | ]. split; [ | split].
  - intros [Hl | [Hd | [Hs Hr]]]; rewrite E; unfold toggleBySpec, opposite.
    + rewrite (consistent_explicit _ Hc) by (rewrite Hl; discriminate).
      reflexivity.
    + rewrite (consistent_explicit _ Hc) by (rewrite Hd; discriminate).
      reflexivity.
    + rewrite Hs, Hr. reflexivity.
  - intros Hs. rewrite E, Hs. reflexivity.
  - rewrite E.
    destruct (callSetTheme_spec s (if theme (context s) === "light" then "dark" else "light")
                (mkSettled s W Hi Ho)) as (s' & E' & _ & _ & T & _).
    exists s'. split; [exact E' | ]. rewrite T.
    destruct (theme (context s) === "light"); auto.
Qed.

Lemma toggleTheme_follows_the_preference_witness :
  callToggleTheme (mounted (freshWindow (Some "dark") true)) =
  toggleBySpec (mounted (freshWindow (Some "dark") true)).
Proof.
  refine (proj1 (proj2 (toggleTheme_follows_the_preference
                          (mounted (freshWindow (Some "dark") true)) _)) _).
  - apply reach_mount with (p := defaultProps) (w := freshWindow (Some "dark") true).
    vm_compute. reflexivity.
  - right. left. vm_compute. reflexivity.
Defined.

(** ** Initialization *)

Lemma truthy_nonempty v : v <> "" -> Js.truthy v = true.
Proof. destruct v; [congruence | reflexivity]. Qed.

Lemma initialTheme_stored p w v :
  LocalStorage.blocked (localStorage w) = false ->
  LocalStorage.items (localStorage w) !! storageKey p = Some v ->
  v <> "" ->
  initialTheme p (Some w) = v.
Proof.
  intros Hb Hv Hne. unfold initialTheme, LocalStorage.getItem.
  rewrite Hb, Hv. simpl. rewrite (truthy_nonempty v Hne). reflexivity.
Qed.

Lemma initialTheme_default p w :
  LocalStorage.blocked (localStorage w) = true \/
  LocalStorage.items (localStorage w) !! storageKey p = None \/
  LocalStorage.items (localStorage w) !! storageKey p = Some "" ->
  initialTheme p (Some w) = defaultTheme p.
Proof.
  unfold initialTheme, LocalStorage.getItem.
  intros [Hb | [Hn | He]].
  - rewrite Hb. reflexivity.
  - destruct (LocalStorage.blocked (localStorage w)); [reflexivity | ].
    rewrite Hn. reflexivity.
  - destruct (LocalStorage.blocked (localStorage w)); [reflexivity | ].
    rewrite He. reflexivity.
Qed.

(** C4, counterexample.  The string ["purple"] stored under the key is none
    of the three tags, and the provider starts with preference ["purple"],
    not with the default ["system"]. *)
Lemma corrupted_stored_value_becomes_the_preference :
  let w := freshWindow (Some "purple") false in
  corrupted (LocalStorage.items (localStorage w) !! storageKey defaultProps) /\
  initialTheme defaultProps (Some w) = "purple" /\
  option_map (fun s => theme (context s)) (mount defaultProps w) = Some "purple" /\
  initialTheme defaultProps (Some w) <> defaultTheme defaultProps.
Proof.
  cbv zeta. split; [ | split; [ | split]].
  - exists "purple". split; [vm_compute; reflexivity | ].
    intros [H | [H | H]]; discriminate.
  - vm_compute. reflexivity.
  - vm_compute. reflexivity.
  - vm_compute. discriminate.
Qed.

(** C4, amended.  Mounting always succeeds.  When storage throws, or holds
    nothing under the key, or holds the empty string, the preference is the
    configured default, and so it is without [window].  A stored string that
    is not empty becomes the preference as it stands, one of the three tags
    or not. *)
Theorem initial_preference_from_storage (p : ThemeProviderProps) (w : Window) :
  exists s,
    mount p w = Some s /\
    theme (context s) = initialTheme p (Some w) /\
    (LocalStorage.blocked (localStorage w) = true \/
     LocalStorage.items (localStorage w) !! storageKey p = None \/
     LocalStorage.items (localStorage w) !! storageKey p = Some "" ->
     theme (context s) = defaultTheme p) /\
    (forall v,
       LocalStorage.blocked (localStorage w) = false ->
       LocalStorage.items (localStorage w) !! storageKey p = Some v ->
       v <> "" ->
       theme (context s) = v) /\
    initialTheme p None = defaultTheme p.
Proof.
  destruct (mount_spec p w) as (s & E & _ & _ & _ & _ & T & _).
  exists s. split; [exact E | ]. split; [exact T | ]. split; [ | split].
  - intros H. rewrite T. apply initialTheme_default. exact H.
  - intros v Hb Hv Hne. rewrite T. apply initialTheme_stored; assumption.
  - reflexivity.
Qed.

Lemma initial_preference_from_storage_witness :
  exists s,
    mount defaultProps (blockedWindow true) = Some s /\
    theme (context s) = initialTheme defaultProps (Some (blockedWindow true)) /\
    theme (context s) = "system".
Proof.
  destruct (initial_preference_from_storage defaultProps (blockedWindow true))
    as (s & E & T & Hd & _).
  exists s. split; [exact E | ]. split; [exact T | ].
  apply Hd. left. reflexivity.
Defined.

(** ** setTheme *)

(** C5.  In every reachable state, whatever [systemTheme] is, [setTheme(p)]
    with [p] other than ["system"] goes through, and the context it leaves has
    [theme = p] and [resolvedTheme = p]; so has every context committed on the
    way. *)
Theorem setTheme_explicit_sets_resolvedTheme (s : System) (H : reachable s)
  (p : Theme) (Hp : p <> "system") :
  exists s',
    callSetTheme p s = Some s' /\
    theme (context s') = p /\
    resolvedTheme (context s') = p /\
    exists new,
      commits s' = new ++ commits s /\
      Forall (fun c => theme c = p /\ resolvedTheme c = p) new.
Proof.
  destruct (callSetTheme_spec s p (reachable_settled s H))
    as (s' & E & Hs' & _ & T & _ & _ & (new & Hn & Hall) & _).
  exists s'. split; [exact E | ]. split; [exact T | ].
  pose proof (wf_context_consistent s' (st_wf s' Hs')) as Hc.
  split; [rewrite (consistent_explicit _ Hc); congruence | ].
  exists new. split; [exact Hn | ].
  pose proof (wf_consistent s' (st_wf s' Hs')) as F.
  rewrite Hn in F. apply Forall_app_l in F.
  rewrite Forall_forall in *. intros c Hin.
  split; [apply Hall; exact Hin | ].
  rewrite (consistent_explicit c (F c Hin)); rewrite (Hall c Hin); [reflexivity | exact Hp].
Qed.

Lemma setTheme_explicit_sets_resolvedTheme_witness :
  exists s',
    callSetTheme "light" (mounted (freshWindow None true)) = Some s' /\
    theme (context s') = "light" /\
    resolvedTheme (context s') = "light" /\
    exists new,
      commits s' = new ++ commits (mounted (freshWindow None true)) /\
      Forall (fun c => theme c = "light" /\ resolvedTheme c = "light") new.
Proof.
  apply (setTheme_explicit_sets_resolvedTheme (mounted (freshWindow None true))).
  - apply reach_mount with (p := defaultProps) (w := freshWindow None true).
    vm_compute. reflexivity.
  - discriminate.
Defined.

(** ** Resolution under preference ["system"] *)

(** C6.  From every reachable state, every run of operating-system
    notifications goes through, and every context value ever committed, the
    one now exposed among them, has [resolvedTheme = systemTheme] when its
    preference is ["system"].  When the preference is ["system"] at the
    start, it stays so, and after a run ending with the report [b] both
    [systemTheme] and [resolvedTheme] are the theme reported by [b]. *)
Theorem system_preference_resolves_to_systemTheme (s : System) (H : reachable s)
  (events : list bool) :
  exists s',
    osThemeChanges events s = Some s' /\
    In (context s') (commits s') /\
    Forall (fun c => theme c = "system" -> resolvedTheme c = systemTheme c) (commits s') /\
    (exists new, commits s' = new ++ commits s) /\
    (theme (context s) = "system" ->
     theme (context s') = "system" /\
     resolvedTheme (context s') = systemTheme (context s') /\
     forall b, List.last events b = b -> events <> [] ->
       systemTheme (context s') = osTheme b /\ resolvedTheme (context s') = osTheme b).
Proof.
  destruct (osThemeChanges_spec events s (reachable_settled s H))
    as (s' & E & Hs' & _ & T & Hnew & Y).
  pose proof (st_wf s' Hs') as W'.
  pose proof (wf_context_consistent s' W') as Hc.
  exists s'. split; [exact E | ]. split; [ | split; [ | split; [exact Hnew | ]]].
  - destruct (wf_commits s' W') as [older ->]. left. reflexivity.
  - eapply List.Forall_impl; [ | exact (wf_consistent s' W')].
    intros c Hcc Hsys. apply consistent_system; assumption.
  - intros Hsys. rewrite Hsys in T.
    split; [exact T | ]. split; [apply consistent_system; assumption | ].
    intros b Hb Hne. specialize (Y b Hb Hne). rewrite Hsys in Y.
    rewrite computeResolvedTheme_system in Y.
    split; [exact Y | ]. rewrite (consistent_system _ Hc T). exact Y.
Qed.

Lemma system_preference_resolves_to_systemTheme_witness :
  exists s',
    osThemeChanges [true; false; true] (mounted (freshWindow None false)) = Some s' /\
    Forall (fun c => theme c = "system" -> resolvedTheme c = systemTheme c) (commits s') /\
    theme (context s') = "system" /\
    systemTheme (context s') = "dark" /\
    resolvedTheme (context s') = "dark".
Proof.
  assert (Hr : reachable (mounted (freshWindow None false))).
  { apply reach_mount with (p := defaultProps) (w := freshWindow None false).
    vm_compute. reflexivity. }
  destruct (system_preference_resolves_to_systemTheme
              (mounted (freshWindow None false)) Hr [true; false; true])
    as (s' & E & _ & Hall & _ & Hsys).
  destruct Hsys as (T & _ & Hlast); [vm_compute; reflexivity | ].
  destruct (Hlast true) as [Y R]; [reflexivity | discriminate | ].
  exists s'. split; [exact E | ]. split; [exact Hall | ].
  split; [exact T | ]. split; [exact Y | exact R].
Defined.

(** ** Persistence *)

(** C7.  In every reachable state, when [localStorage.setItem] throws for
    the new value, [setTheme] still returns normally, the renders it asked
    for come to rest, and the context then has [theme = p] with
    [resolvedTheme] resolved from it ([p] itself unless [p] is ["system"]);
    the storage is as it was. *)
Theorem setTheme_swallows_storage_failure (s : System) (H : reachable s) (p : Theme)
  (Hthrow : exists m,
      LocalStorage.setItem (localStorage (window s)) (storageKey (props s)) p = Js.Throw m) :
  exists s1 s',
    setTheme (setThemeFn (context s)) p s = Js.Normal s1 /\
    hook_theme (hooks s1) = p /\
    callSetTheme p s = Some s' /\
    theme (context s') = p /\
    resolvedTheme (context s') = computeResolvedTheme p (systemTheme (context s')) /\
    (p <> "system" -> resolvedTheme (context s') = p) /\
    localStorage (window s') = localStorage (window s).
Proof.
  destruct Hthrow as [m Hm].
  pose proof (reachable_settled s H) as Hs.
  destruct (setTheme_spec s p (st_wf s Hs)) as (s1 & E1 & _ & _ & _ & _ & T1 & _).
  destruct (callSetTheme_spec s p Hs) as (s' & E & Hs' & _ & T & L & _).
  pose proof (wf_context_consistent s' (st_wf s' Hs')) as Hc.
  exists s1, s'. split; [exact E1 | ]. split; [exact T1 | ].
  split; [exact E | ]. split; [exact T | ].
  split; [rewrite Hc, T; reflexivity | ].
  split; [intros Hp; rewrite (consistent_explicit _ Hc); congruence | ].
  rewrite L. unfold storedAfter. rewrite Hm. reflexivity.
Qed.

Lemma setTheme_swallows_storage_failure_witness :
  exists s1 s',
    setTheme (setThemeFn (context (mounted (blockedWindow true)))) "light"
             (mounted (blockedWindow true)) = Js.Normal s1 /\
    hook_theme (hooks s1) = "light" /\
    callSetTheme "light" (mounted (blockedWindow true)) = Some s' /\
    theme (context s') = "light" /\
    resolvedTheme (context s') = computeResolvedTheme "light" (systemTheme (context s')) /\
    ("light" <> "system" -> resolvedTheme (context s') = "light") /\
    localStorage (window s') = localStorage (window (mounted (blockedWindow true))).
Proof.
  apply (setTheme_swallows_storage_failure (mounted (blockedWindow true))).
  - apply reach_mount with (p := defaultProps) (w := blockedWindow true).
    vm_compute. reflexivity.
  - exists "SecurityError". vm_compute. reflexivity.
Defined.

Lemma isTheme_nonempty p : isTheme p -> p <> "".
Proof. intros [-> | [-> | ->]]; discriminate. Qed.

(** C8.  In every reachable state whose storage works, [setTheme(p)] with
    [p] one of the three tags stores [p] under the provider's storage key, and
    a provider mounted afterwards over that storage with the same key,
    whatever its other props and the rest of its window, starts with
    [theme = p]. *)
Theorem preference_survives_a_fresh_mount (s : System) (H : reachable s) (p : Theme)
  (Hp : isTheme p) (Hw : LocalStorage.working (localStorage (window s))) :
  exists s',
    callSetTheme p s = Some s' /\
    LocalStorage.items (localStorage (window s')) !! storageKey (props s) = Some p /\
    forall p' w',
      storageKey p' = storageKey (props s) ->
      localStorage w' = localStorage (window s') ->
      exists s2, mount p' w' = Some s2 /\ theme (context s2) = p.
Proof.
  destruct Hw as [Hb Hf].
  destruct (callSetTheme_spec s p (reachable_settled s H))
    as (s' & E & _ & _ & _ & L & _).
  unfold storedAfter, LocalStorage.setItem in L. rewrite Hb, Hf in L. simpl in L.
  exists s'. split; [exact E | ].
  split; [rewrite L; simpl; apply lookup_insert_eq | ].
  intros p' w' Hk Hl.
  destruct (mount_spec p' w') as (s2 & E2 & _ & _ & _ & _ & T2 & _).
  exists s2. split; [exact E2 | ]. rewrite T2.
  apply initialTheme_stored.
  - rewrite Hl, L. reflexivity.
  - rewrite Hl, L, Hk. simpl. apply lookup_insert_eq.
  - apply isTheme_nonempty. exact Hp.
Qed.

Lemma preference_survives_a_fresh_mount_witness :
  exists s',
    callSetTheme "dark" (mounted (freshWindow None false)) = Some s' /\
    LocalStorage.items (localStorage (window s'))
      !! storageKey (props (mounted (freshWindow None false))) = Some "dark" /\
    forall p' w',
      storageKey p' = storageKey (props (mounted (freshWindow None false))) ->
      localStorage w' = localStorage (window s') ->
      exists s2, mount p' w' = Some s2 /\ theme (context s2) = "dark".
Proof.
  apply (preference_survives_a_fresh_mount (mounted (freshWindow None false))).
  - apply reach_mount with (p := defaultProps) (w := freshWindow None false).
    vm_compute. reflexivity.
  - right. left. reflexivity.
  - split; vm_compute; reflexivity.
Defined.

(** ** The transition-suppressing rule *)

(** C9, counterexample.  After the frame that clears the mount's own rule,
    [setTheme("dark")] and then [setTheme("light")] happen before the next
    frame.  The head then holds the rules numbered 1 to 6, one per call of
    [applyTheme] (rules 1 to 3 from the first change, 4 to 6 from the second),
    and six removals are pending.  In the next frame the first removal,
    registered by the first change together with rule 1, empties the head: it
    takes away rule 4, which the second change injected and whose own removal
    has yet to run. *)
Lemma first_removal_strips_newer_rules :
  exists s,
    run [AnimationFrameEvent; SetThemeEvent "dark"; SetThemeEvent "light"]
        (mounted (freshWindow None false)) = Some s /\
    map Dom.node_id (Dom.head (document (window s))) = [1; 2; 3; 4; 5; 6] /\
    Dom.frameCallbacks (document (window s)) =
      map Dom.RemoveTransitionStyles [1; 2; 3; 4; 5; 6] /\
    option_map Dom.head (match nextFrameCallback (document (window s)) with
                         | Js.Normal d => Some d
                         | Js.Throw _ => None
                         end) = Some [] /\
    ~ removalSparesNewer (document (window s)).
Proof.
  eexists. split; [vm_compute; reflexivity | ].
  split; [vm_compute; reflexivity | ].
  split; [vm_compute; reflexivity | ].
  split; [vm_compute; reflexivity | ].
  intros Hclaim.
  match goal with
  | Hclaim : removalSparesNewer ?d |- _ =>
      assert (Hnext : exists d', nextFrameCallback d = Js.Normal d' /\ Dom.head d' = [])
        by (vm_compute; eexists; split; reflexivity);
      assert (Hcb : Dom.frameCallbacks d =
                    Dom.RemoveTransitionStyles 1
                      :: map Dom.RemoveTransitionStyles [2; 3; 4; 5; 6])
        by (vm_compute; reflexivity);
      assert (Hin : In (Dom.mkElement 4 "style" transitionCss) (Dom.head d))
        by (vm_compute; tauto)
  end.
  destruct Hnext as (d' & Hnext & Hhead).
  specialize (Hclaim _ _ d' Hcb Hnext (Dom.mkElement 4 "style" transitionCss) Hin).
  rewrite Hhead in Hclaim. apply Hclaim.
  - simpl. lia.
  - simpl. tauto.
Qed.

(** C9, amended.  On a head whose nodes are distinct, the scheduled removal
    returns normally and takes away every style element whose text contains
    [transition: none !important], whichever change injected it; every other
    element stays, in its place, and nothing else of the document changes. *)
Theorem removal_strips_every_suppressing_rule (d : Dom.Document) (cb : Dom.FrameCallback)
  (Hnodes : List.NoDup (map Dom.node_id (Dom.head d))) :
  exists d',
    runFrameCallback cb d = Js.Normal d' /\
    Dom.head d' = List.filter (fun e => negb (suppressesTransitions e)) (Dom.head d) /\
    (forall e, In e (Dom.head d') <-> In e (Dom.head d) /\ suppressesTransitions e = false) /\
    Dom.rootClassList d' = Dom.rootClassList d /\
    Dom.rootAttributes d' = Dom.rootAttributes d /\
    Dom.themeColorMeta d' = Dom.themeColorMeta d /\
    Dom.frameCallbacks d' = Dom.frameCallbacks d.
Proof.
  destruct cb as [n]. cbn [runFrameCallback].
  rewrite (removeTransitionStyles_spec d Hnodes).
  eexists. split; [reflexivity | ]. split; [reflexivity | ].
  split; [ | repeat split].
  intros e. cbn [Dom.head Dom.setHead]. rewrite filter_In, negb_true_iff. tauto.
Qed.

Lemma removal_strips_every_suppressing_rule_witness :
  exists d',
    runFrameCallback (Dom.RemoveTransitionStyles 0)
      (snd (applyTheme (mkApplyTheme 1 "light" true (AttrName "data-theme")
                                     (mkValue (Some "light") (Some "dark")))
                       "dark" emptyDocument)) = Js.Normal d' /\
    Dom.head d' = [].
Proof.
  destruct (removal_strips_every_suppressing_rule
              (snd (applyTheme (mkApplyTheme 1 "light" true (AttrName "data-theme")
                                             (mkValue (Some "light") (Some "dark")))
                               "dark" emptyDocument))
              (Dom.RemoveTransitionStyles 0))
    as (d' & E & Hh & _).
  - vm_compute. repeat constructor. intros [].
  - exists d'. split; [exact E | ]. rewrite Hh. vm_compute. reflexivity.
Defined.

(** ** The two resolutions *)

(** C10.  Whatever it captured, [applyTheme] returns for every theme [t]
    the provider's resolution of [t] with the captured [systemTheme].  In
    every reachable state the [applyTheme] inside the exposed [setTheme]
    captured the exposed [systemTheme]: for every theme it returns what the
    provider's resolution gives with the exposed [systemTheme], and for the
    exposed theme it returns the exposed [resolvedTheme]. *)
Theorem applyTheme_resolves_like_the_provider (s : System) (H : reachable s)
  (d : Dom.Document) :
  (forall f t d0, fst (applyTheme f t d0) = computeResolvedTheme t (ap_systemTheme f)) /\
  exists ref key f,
    setThemeFn (context s) = SetThemeFn ref key f /\
    (forall t, fst (applyTheme f t d) = computeResolvedTheme t (systemTheme (context s))) /\
    fst (applyTheme f (theme (context s)) d) = resolvedTheme (context s).
Proof.
  split; [reflexivity | ].
  pose proof (st_wf s (reachable_settled s H)) as W.
  destruct (wf_cells s W) as (ap & r1 & r2 & C & Hc).
  exists r1, (storageKey (props s)), ap.
  split; [rewrite Hc; reflexivity | ].
  split.
  - intros t. rewrite applyTheme_fst, applyTheme_resolved_compute.
    rewrite (cell_apply_systemTheme _ _ _ _ _ _ _ C). reflexivity.
  - rewrite applyTheme_fst, applyTheme_resolved_compute.
    rewrite (cell_apply_systemTheme _ _ _ _ _ _ _ C).
    symmetry. apply (wf_context_consistent s W).
Qed.

Lemma applyTheme_resolves_like_the_provider_witness :
  exists ref key f,
    setThemeFn (context (mounted (freshWindow None true))) = SetThemeFn ref key f /\
    (forall t, fst (applyTheme f t emptyDocument) =
               computeResolvedTheme t (systemTheme (context (mounted (freshWindow None true))))) /\
    fst (applyTheme f (theme (context (mounted (freshWindow None true)))) emptyDocument) =
      resolvedTheme (context (mounted (freshWindow None true))).
Proof.
  refine (proj2 (applyTheme_resolves_like_the_provider
                   (mounted (freshWindow None true)) _ emptyDocument)).
  apply reach_mount with (p := defaultProps) (w := freshWindow None true).
  vm_compute. reflexivity.
Defined.

(** * The document under [applyTheme] and animation frames *)

(** ** What one call of [applyTheme] changes *)










(** ** What an animation frame changes *)







(** ** Documents that evolve *)





(** * The provider in a clean window *)

(** ** What a render with its effect leaves in the window *)








(** ** The renders after a handler, in a clean window *)




(** ** Mounting in a clean window *)





(** ** The events, from a tidy state *)









(** ** Sessions *)




(** ** What evolving documents keep *)






(** * Further properties of the provider *)

Lemma freshWindow_clean stored osDark : cleanWindow (freshWindow stored osDark).
Proof. split; [reflexivity | split; constructor]. Qed.

(** ** The marker on the root *)







(** ** The listener on the media query *)



(** ** Animation frames *)








(** ** Renders *)



(** ** The stored preference *)









(** ** What the provider writes to storage *)








(** ** Toggling twice *)

Lemma settled_consistent s : settled s -> consistent (context s).
Proof. intros Hs. exact (wf_context_consistent s (st_wf s Hs)). Qed.

(** X13.  In every reachable state two toggles in a row go through and leave
    the preference ["light"] when it was ["light"] and ["dark"] otherwise,
    with the resolved theme equal to it: toggling twice gives the preference
    back exactly when it was one of the two explicit tags, and never gives
    back ["system"]. *)
Theorem toggling_twice (s : System) (Hreach : reachable s) :
  exists s1 s2,
    callToggleTheme s = Some s1 /\
    callToggleTheme s1 = Some s2 /\
    theme (context s2) = (if theme (context s) === "light" then "light" else "dark") /\
    resolvedTheme (context s2) = theme (context s2) /\
    (theme (context s2) = theme (context s) <->
     theme (context s) = "light" \/ theme (context s) = "dark").
Proof.
  pose proof (reachable_settled s Hreach) as Hs.
  destruct (callSetTheme_spec s (if theme (context s) === "light" then "dark" else "light") Hs)
    as (s1 & E1 & Hs1 & _ & T1 & _).
  rewrite <- (callToggleTheme_spec s (st_wf s Hs)) in E1.
  destruct (callSetTheme_spec s1 (if theme (context s1) === "light" then "dark" else "light") Hs1)
    as (s2 & E2 & Hs2 & _ & T2 & _).
  rewrite <- (callToggleTheme_spec s1 (st_wf s1 Hs1)) in E2.
  exists s1, s2. split; [exact E1 | ]. split; [exact E2 | ].
  assert (T : theme (context s2) = (if theme (context s) === "light" then "light" else "dark")).
  { rewrite T2, T1. destruct (theme (context s) === "light"); reflexivity. }
  split; [exact T | ]. split.
  - apply consistent_explicit; [exact (settled_consistent s2 Hs2) | ].
    rewrite T. destruct (theme (context s) === "light"); discriminate.
  - rewrite T. unfold Js.strictEq.
    destruct (String.eqb_spec (theme (context s)) "light") as [-> | Hne].
    + split; [left | ]; reflexivity.
    + split; [intros <-; right; reflexivity | ].
      intros [H | H]; [contradiction | symmetry; exact H].
Qed.

Lemma toggling_twice_witness :
  exists s1 s2,
    callToggleTheme (mounted (freshWindow None true)) = Some s1 /\
    callToggleTheme s1 = Some s2 /\
    theme (context s2) =
      (if theme (context (mounted (freshWindow None true))) === "light"
       then "light" else "dark") /\
    resolvedTheme (context s2) = theme (context s2) /\
    (theme (context s2) = theme (context (mounted (freshWindow None true))) <->
     theme (context (mounted (freshWindow None true))) = "light" \/
     theme (context (mounted (freshWindow None true))) = "dark").
Proof.
  apply toggling_twice.
  apply reach_mount with (p := defaultProps) (w := freshWindow None true).
  vm_compute. reflexivity.
Defined.

(** ** The list of themes *)

Lemma wf_themes s : wf s -> themes (context s) = computeThemes (enableSystem (props s)).
Proof. intros W. destruct (wf_cells s W) as (ap & r1 & r2 & _ & ->). reflexivity. Qed.

(** X14.  [enableSystem] decides the exposed list of themes and nothing
    else: in every reachable state [themes] has the two explicit tags,
    followed by ["system"] exactly when [enableSystem] is on, and
    [setTheme("system")] goes through and makes ["system"] the preference
    whether or not the list has it. *)
Theorem enableSystem_only_decides_the_list (s : System) (Hreach : reachable s) :
  themes (context s) =
    (if enableSystem (props s) then ["light"; "dark"; "system"] else ["light"; "dark"]) /\
  exists s',
    callSetTheme "system" s = Some s' /\
    theme (context s') = "system" /\
    resolvedTheme (context s') = systemTheme (context s') /\
    themes (context s') = themes (context s).
Proof.
  pose proof (reachable_settled s Hreach) as Hs.
  split; [exact (wf_themes s (st_wf s Hs)) | ].
  destruct (callSetTheme_spec s "system" Hs) as (s' & E & Hs' & P & T & _).
  exists s'. split; [exact E | ]. split; [exact T | ]. split.
  - exact (consistent_system _ (settled_consistent s' Hs') T).
  - rewrite (wf_themes s' (st_wf s' Hs')), (wf_themes s (st_wf s Hs)), P. reflexivity.
Qed.

Lemma enableSystem_only_decides_the_list_witness :
  themes (context (sessionEnd noSystemProps (freshWindow (Some "dark") false) [])) =
    (if enableSystem (props (sessionEnd noSystemProps (freshWindow (Some "dark") false) []))
     then ["light"; "dark"; "system"] else ["light"; "dark"]) /\
  exists s',
    callSetTheme "system" (sessionEnd noSystemProps (freshWindow (Some "dark") false) [])
      = Some s' /\
    theme (context s') = "system" /\
    resolvedTheme (context s') = systemTheme (context s') /\
    themes (context s') =
      themes (context (sessionEnd noSystemProps (freshWindow (Some "dark") false) [])).
Proof.
  apply enableSystem_only_decides_the_list.
  apply reach_mount with (p := noSystemProps) (w := freshWindow (Some "dark") false).
  vm_compute. reflexivity.
Defined.

(** ** The commits of mounting *)

